(** * PII detection demo: a shallow embedding of [streamlit_main.py]

    The module is a Streamlit front end over two engines of the Presidio
    packages: [AnalyzerEngine] (detection, with its recognizer registry) and
    [AnonymizerEngine] (redaction).  The code of the module itself is

    - [PIIDetector.add_custom_regex] / [add_custom_whitelist]: build a rule
      dictionary and hand it to the analyzer's registry;
    - [analyze_text] / [anonymize_text]: one call into an engine each;
    - [analyze_dataframe]: the per-column, per-value scan that builds the
      findings table;
    - [anonymize_dataframe]: the per-finding rewrite of a copy of the table;
    - [display_results]: the highlighting loop that splices [**[PII:T]**]
      markers into the text from the last finding to the first.

    The engines are not part of the module: they are the variables of
    Section [Detector], and every statement below holds for whatever the
    engines do.  Python strings are modelled as Rocq strings (a sequence of
    characters), Python ints as [Z], the confidence score (a float that the
    module only passes along) as [Q], exceptions as a result type, and pandas
    objects as values in a store of frames, since [DataFrame.copy] and the
    in-place [iloc] assignment are about which object is written. *)

From Stdlib Require Import ZArith QArith String Ascii List DecimalString.
From stdpp Require Import base option list strings gmap.

Local Open Scope string_scope.
Local Open Scope Z_scope.

(** ** Python values the module handles *)

Module Py.

(** The exception classes the module's own statements can raise, and
    [LibraryError] for whatever an engine call raises. *)
Inductive exn :=
| NameError (name : string)
| KeyError (key : string)
| IndexError
| LibraryError (cls : string).

Inductive result (A : Type) :=
| Ok (a : A)
| Raise (e : exn).
Arguments Ok {A} a.
Arguments Raise {A} e.

Definition bind {A B} (m : result A) (k : A → result B) : result B :=
  match m with
  | Ok a => k a
  | Raise e => Raise e
  end.

Definition is_ok {A} (m : result A) : bool :=
  match m with Ok _ => true | Raise _ => false end.

(** [for x in xs: body], the loop state threaded through the iterations;
    an exception leaves the loop. *)
Fixpoint for_ {A S} (xs : list A) (body : A → S → result S) (s : S) : result S :=
  match xs with
  | [] => Ok s
  | x :: xs' => bind (body x s) (for_ xs' body)
  end.

(** [enumerate(xs)]: positions count from 0. *)
Definition enumerate {A} (xs : list A) : list (nat * A) := imap pair xs.

(** A slice bound is counted from the end when negative and clamped to
    [0 .. n]. *)
Definition slice_bound (n i : Z) : Z :=
  if i <? 0 then Z.max 0 (i + n) else Z.min i n.

(** [s[a:b]] *)
Definition slice (s : string) (a b : Z) : string :=
  let n := Z.of_nat (String.length s) in
  let lo := slice_bound n a in
  let hi := slice_bound n b in
  substring (Z.to_nat lo) (Z.to_nat (hi - lo)) s.

(** [s[:b]] and [s[a:]] *)
Definition slice_to (s : string) (b : Z) : string := slice s 0 b.
Definition slice_from (s : string) (a : Z) : string :=
  slice s a (Z.of_nat (String.length s)).

(** [c.isspace()] for the characters below 256. *)
Definition isspace (c : ascii) : bool :=
  let n := nat_of_ascii c in
  ((9 <=? n) && (n <=? 13) || (28 <=? n) && (n <=? 32)
   || (n =? 133) || (n =? 160))%nat.

Fixpoint lstrip_chars (l : list ascii) : list ascii :=
  match l with
  | [] => []
  | c :: l' => if isspace c then lstrip_chars l' else l
  end.

Definition strip_chars (l : list ascii) : list ascii :=
  rev (lstrip_chars (rev (lstrip_chars l))).

(** [s.strip()] *)
Definition strip (s : string) : string :=
  string_of_list_ascii (strip_chars (list_ascii_of_string s)).

Fixpoint split_chars (sep : ascii) (l : list ascii) : list (list ascii) :=
  match l with
  | [] => [[]]
  | c :: l' =>
      if Ascii.eqb c sep then [] :: split_chars sep l'
      else match split_chars sep l' with
           | [] => [[c]]
           | line :: lines => (c :: line) :: lines
           end
  end.

(** [s.split(sep)] for a separator of one character. *)
Definition split (sep : ascii) (s : string) : list string :=
  string_of_list_ascii <$> split_chars sep (list_ascii_of_string s).

Definition newline : ascii := "010"%char.

(** The names bound at module level: the imports (lines 1-12) and the
    [class] and [def] statements. *)
Definition module_globals : list string :=
  [ "st"; "pd"; "io"; "AnalyzerEngine"; "AnonymizerEngine";
    "NlpEngineProvider"; "Dict"; "List"; "Tuple"; "re"; "PyPDFLoader";
    "CSVLoader"; "UnstructuredFileLoader"; "RecursiveCharacterTextSplitter";
    "tempfile"; "os"; "PIIDetector"; "detector"; "main"; "load_file";
    "analyze_dataframe"; "analyze_text"; "anonymize_dataframe";
    "anonymize_text"; "display_results" ].

(** The built-in functions, types, constants and exceptions of Python 3. *)
Definition builtins : list string :=
  [ "abs"; "aiter"; "all"; "anext"; "any"; "ascii"; "bin"; "bool";
    "breakpoint"; "bytearray"; "bytes"; "callable"; "chr"; "classmethod";
    "compile"; "complex"; "delattr"; "dict"; "dir"; "divmod"; "enumerate";
    "eval"; "exec"; "filter"; "float"; "format"; "frozenset"; "getattr";
    "globals"; "hasattr"; "hash"; "help"; "hex"; "id"; "input"; "int";
    "isinstance"; "issubclass"; "iter"; "len"; "list"; "locals"; "map";
    "max"; "memoryview"; "min"; "next"; "object"; "oct"; "open"; "ord";
    "pow"; "print"; "property"; "range"; "repr"; "reversed"; "round"; "set";
    "setattr"; "slice"; "sorted"; "staticmethod"; "str"; "sum"; "super";
    "tuple"; "type"; "vars"; "zip"; "__import__";
    "None"; "True"; "False"; "Ellipsis"; "NotImplemented"; "__debug__";
    "BaseException"; "Exception"; "ArithmeticError"; "AssertionError";
    "AttributeError"; "BufferError"; "EOFError"; "FloatingPointError";
    "GeneratorExit"; "ImportError"; "ModuleNotFoundError"; "IndexError";
    "KeyError"; "KeyboardInterrupt"; "LookupError"; "MemoryError";
    "NameError"; "NotImplementedError"; "OSError"; "OverflowError";
    "RecursionError"; "ReferenceError"; "RuntimeError"; "StopIteration";
    "StopAsyncIteration"; "SyntaxError"; "IndentationError"; "TabError";
    "SystemError"; "SystemExit"; "TypeError"; "UnboundLocalError";
    "UnicodeError"; "UnicodeEncodeError"; "UnicodeDecodeError";
    "UnicodeTranslateError"; "ValueError"; "ZeroDivisionError";
    "EnvironmentError"; "IOError"; "BlockingIOError"; "ChildProcessError";
    "ConnectionError"; "BrokenPipeError"; "ConnectionAbortedError";
    "ConnectionRefusedError"; "ConnectionResetError"; "FileExistsError";
    "FileNotFoundError"; "InterruptedError"; "IsADirectoryError";
    "NotADirectoryError"; "PermissionError"; "ProcessLookupError";
    "TimeoutError"; "Warning"; "UserWarning"; "DeprecationWarning";
    "PendingDeprecationWarning"; "SyntaxWarning"; "RuntimeWarning";
    "FutureWarning"; "ImportWarning"; "UnicodeWarning"; "BytesWarning";
    "ResourceWarning" ].

(** Reading a name that is not local to the function: the module's
    globals, then the built-ins, else [NameError]. *)
Definition load_global (name : string) : result unit :=
  if bool_decide (name ∈ module_globals) then Ok tt
  else if bool_decide (name ∈ builtins) then Ok tt
  else Raise (NameError name).

End Py.
Export Py.

#[export] Instance result_ret : MRet result := @Ok.
#[export] Instance result_bind : MBind result := λ A B k m, Py.bind m k.

(** ** Engine results and the findings table *)

(** What [AnalyzerEngine.analyze] yields per detection; the module reads
    [entity_type], [start], [end] and [score]. *)
Record RecognizerResult := {
  entity_type : string;
  start : Z;
  end_ : Z;
  score : Q
}.

(** A row of the table [analyze_dataframe] builds. *)
Record Finding := {
  Column : string;
  Row : Z;
  PII_Type : string;
  Text : string;
  Score : Q;
  Start : Z;
  End_ : Z
}.

(** The rule dictionaries of [add_custom_regex] and [add_custom_whitelist]. *)
Record pattern_entry := { regex : string; pattern_score : Q }.
Record whitelist_entry := { words : list string; whitelist_score : Q }.
Record recognizer_dict := {
  name : string;
  supported_entity : string;
  supported_language : string;
  deny_list : list string;
  context : option (list string);
  patterns : list pattern_entry;
  whitelist_patterns : option (list whitelist_entry)
}.

(** ** pandas frames *)

(** A cell is missing ([NaN]/[None]) or holds a scalar value (a text or a
    number), kept as the string that [str(value)] gives.  Cells that hold a
    list, for which [pd.isna] gives no single truth value, are outside the
    model: the statements are about tables of scalar cells. *)
Inductive cell :=
| NaN
| Val (repr : string).

Definition isna (v : cell) : bool :=
  match v with NaN => true | Val _ => false end.

Definition str (v : cell) : string :=
  match v with NaN => "nan" | Val s => s end.

(** A frame: the number of rows and the columns in order, each a label and
    its cells.  Frames read by [pd.read_csv] and [pd.read_json] have
    distinct labels and the default index [0 .. index_len - 1]. *)
Record DataFrame := {
  index_len : nat;
  series : list (string * list cell)
}.

Definition columns (df : DataFrame) : list string := (series df).*1.

Definition shape (df : DataFrame) : nat * nat :=
  (index_len df, length (series df)).

Definition well_formed (df : DataFrame) : Prop :=
  NoDup (columns df) ∧ Forall (λ c, length c.2 = index_len df) (series df).

Fixpoint assoc {A} (k : string) (l : list (string * A)) : option A :=
  match l with
  | [] => None
  | (k', a) :: l' => if String.eqb k k' then Some a else assoc k l'
  end.

(** [df[col]] for a label that occurs once among the columns, where it is
    the column of that label; the statements about the scan assume distinct
    labels. *)
Definition getitem (df : DataFrame) (col : string) : result (list cell) :=
  match assoc col (series df) with
  | Some c => Ok c
  | None => Raise (KeyError col)
  end.

(** [series.dropna()] *)
Definition dropna (c : list cell) : list cell :=
  filter (λ v, isna v = false) c.

(** A positional index of [iloc]: negative positions count from the end,
    anything outside is an [IndexError]. *)
Definition iloc_pos (n : nat) (idx : Z) : result nat :=
  if (0 <=? idx) && (idx <? Z.of_nat n) then Ok (Z.to_nat idx)
  else if (- Z.of_nat n <=? idx) && (idx <? 0) then Ok (Z.to_nat (idx + Z.of_nat n))
  else Raise IndexError.

(** The cell of column [col] in row [i] (a missing entry reads as [NaN]). *)
Definition cell_at (df : DataFrame) (col : string) (i : nat) : option cell :=
  c ← assoc col (series df); Some (default NaN (c !! i)).

(** [df.iloc[idx][col]]: the row by position, then the label in that row. *)
Definition iloc_row_getitem (df : DataFrame) (idx : Z) (col : string) : result cell :=
  i ← iloc_pos (index_len df) idx;
  match cell_at df col i with
  | Some v => Ok v
  | None => Raise (KeyError col)
  end.

Fixpoint index_of (k : string) (l : list string) : option nat :=
  match l with
  | [] => None
  | k' :: l' => if String.eqb k k' then Some 0%nat else S <$> index_of k l'
  end.

(** [df.columns.get_loc(col)] *)
Definition get_loc (df : DataFrame) (col : string) : result nat :=
  match index_of col (columns df) with
  | Some j => Ok j
  | None => Raise (KeyError col)
  end.

(** [df.iloc[idx, j] = v], on the frame value. *)
Definition iloc_set (df : DataFrame) (idx : Z) (j : nat) (v : cell) : result DataFrame :=
  i ← iloc_pos (index_len df) idx;
  match series df !! j with
  | Some (label, c) =>
      Ok {| index_len := index_len df;
            series := <[j := (label, <[i := v]> c)]> (series df) |}
  | None => Raise IndexError
  end.

(** ** The store of frames

    A pandas frame is an object: [df.copy()] makes a new one and the [iloc]
    assignment writes the object it is applied to.  The store maps object
    identities to frame values. *)

Abbreviation loc := nat (only parsing).
Abbreviation store := (gmap nat DataFrame) (only parsing).

(** Statements that read and write the store and may raise. *)
Record stmt (A : Type) := Stmt { run : store → store * result A }.
Arguments Stmt {A} _.
Arguments run {A} _ _.

#[export] Instance stmt_ret : MRet stmt := λ A a, Stmt (λ σ, (σ, Ok a)).

#[export] Instance stmt_bind : MBind stmt := λ A B k m,
  Stmt (λ σ, match run m σ with
             | (σ', Ok a) => run (k a) σ'
             | (σ', Raise e) => (σ', Raise e)
             end).

(** An expression that only computes: the store is left as it is. *)
Definition pure {A} (r : result A) : stmt A := Stmt (λ σ, (σ, r)).

(** Reading the frame behind a reference. *)
Definition deref (l : loc) : stmt DataFrame :=
  Stmt (λ σ, match σ !! l with
             | Some df => (σ, Ok df)
             | None => (σ, Raise (LibraryError "ReferenceError"))
             end).

(** Binding a new object, and writing an existing one. *)
Definition alloc (df : DataFrame) : stmt loc :=
  Stmt (λ σ, let l := fresh (dom σ) in (<[l := df]> σ, Ok l)).
Definition write (l : loc) (df : DataFrame) : stmt unit :=
  Stmt (λ σ, (<[l := df]> σ, Ok tt)).

(** [df.copy()]: a new object with the same content. *)
Definition copy (l : loc) : stmt loc :=
  df ← deref l; alloc df.

(** [df.iloc[idx, j] = v]: the object behind [l] is written. *)
Definition iloc_setitem (l : loc) (idx : Z) (j : nat) (v : cell) : stmt unit :=
  df ← deref l;
  df' ← pure (iloc_set df idx j v);
  write l df'.

(** [for x in xs: body] over statements. *)
Fixpoint for_stmt {A} (xs : list A) (body : A → stmt unit) : stmt unit :=
  match xs with
  | [] => mret tt
  | x :: xs' => _ ← body x; for_stmt xs' body
  end.

(** ** The module's functions *)

(** The result object of [AnonymizerEngine.anonymize]; the module reads its
    [text] attribute. *)
Record EngineResult := { text_ : string }.

Section Detector.

(** The state of the analyzer's recognizer registry. *)
Context {Registry : Type}.

(** [detector.analyzer.analyze(text=, entities=, language=)] *)
Variable analyzer_analyze :
  Registry → string → list string → string → result (list RecognizerResult).

(** [detector.anonymizer.anonymize(text=, analyzer_results=)] *)
Variable anonymizer_anonymize :
  string → list RecognizerResult → result EngineResult.

(** [detector.analyzer.registry.add_recognizer(recognizer)]: the registry
    afterwards, and whether the call raised. *)
Variable registry_add_recognizer :
  Registry → recognizer_dict → Registry * result unit.

(** [PIIDetector.add_custom_regex] (lines 57-66) *)
Definition add_custom_regex (reg : Registry) (name : string) (pattern : string)
    (score : Q) : Registry * result unit :=
  let recognizer :=
    {| name := name;
       supported_entity := name;
       supported_language := "en";
       deny_list := [];
       context := None;
       patterns := [ {| regex := pattern; pattern_score := score |} ];
       whitelist_patterns := None |} in
  registry_add_recognizer reg recognizer.

(** [PIIDetector.add_custom_whitelist] (lines 68-79) *)
Definition add_custom_whitelist (reg : Registry) (name : string)
    (whitelist : list string) (score : Q) : Registry * result unit :=
  let recognizer :=
    {| name := name;
       supported_entity := name;
       supported_language := "en";
       deny_list := [];
       context := Some [];
       patterns := [];
       whitelist_patterns :=
         Some [ {| words := whitelist; whitelist_score := score |} ] |} in
  registry_add_recognizer reg recognizer.

(** The dictionary appended to [results] for one detection (lines 247-255). *)
Definition finding_row (col : string) (idx : nat) (text : string)
    (finding : RecognizerResult) : Finding :=
  {| Column := col;
     Row := Z.of_nat idx;
     PII_Type := entity_type finding;
     Text := slice text (start finding) (end_ finding);
     Score := score finding;
     Start := start finding;
     End_ := end_ finding |}.

(** The body of the inner loop of [analyze_dataframe] (lines 240-255). *)
Definition analyze_value (reg : Registry) (col : string)
    (iv : nat * cell) (results : list Finding) : result (list Finding) :=
  let '(idx, value) := iv in
  if isna value then Ok results
  else
    let text := str value in
    findings ← analyzer_analyze reg text [] "en";
    Ok (results ++ map (finding_row col idx text) findings)%list.

(** The body of the outer loop of [analyze_dataframe] (lines 239-255). *)
Definition analyze_column (reg : Registry) (df : DataFrame) (col : string)
    (results : list Finding) : result (list Finding) :=
  column ← getitem df col;
  for_ (enumerate (dropna column)) (analyze_value reg col) results.

(** [analyze_dataframe] (lines 234-257) *)
Definition analyze_dataframe (reg : Registry) (df : DataFrame)
    : result (list Finding) :=
  for_ (columns df) (analyze_column reg df) [].

(** [analyze_text] (lines 260-262) *)
Definition analyze_text (reg : Registry) (text : string)
    : result (list RecognizerResult) :=
  analyzer_analyze reg text [] "en".

(** The body of the loop of [anonymize_dataframe] (lines 269-291). *)
Definition anonymize_row (df df_safe : loc) (row : Finding) : stmt unit :=
  let col := Column row in
  let idx := Row row in
  let '(start, end_) := (Start row, End_ row) in
  let pii_type := PII_Type row in
  safe ← deref df_safe;
  value ← pure (iloc_row_getitem safe idx col);
  let original_text := str value in
  _ ← pure (load_global "RecognizerResult");
  let recognizer_result :=
    {| entity_type := pii_type; start := start; end_ := end_;
       score := Score row |} in
  redacted ← pure (anonymizer_anonymize original_text [recognizer_result]);
  orig ← deref df;
  j ← pure (get_loc orig col);
  iloc_setitem df_safe idx j (Val (text_ redacted)).

(** [anonymize_dataframe] (lines 264-293) *)
Definition anonymize_dataframe (df : loc) (results_df : list Finding) : stmt loc :=
  df_safe ← copy df;
  _ ← for_stmt results_df (anonymize_row df df_safe);
  mret df_safe.

(** [anonymize_text] (lines 295-297) *)
Definition anonymize_text (text : string) (findings : list RecognizerResult)
    : result string :=
  r ← anonymizer_anonymize text findings;
  Ok (text_ r).

End Detector.

Arguments add_custom_regex {Registry} _ _ _ _ _.
Arguments add_custom_whitelist {Registry} _ _ _ _ _.
Arguments analyze_value {Registry} _ _ _ _ _.
Arguments analyze_column {Registry} _ _ _ _ _.
Arguments analyze_dataframe {Registry} _ _ _.
Arguments analyze_text {Registry} _ _ _.

(** ** The rule form of the sidebar *)

(** What the sidebar shows after a button was pressed. *)
Inductive notice :=
| success (tag : string)
| error (message : string).

(** A string in a condition: true unless empty. *)
Definition truthy (s : string) : bool := negb (String.eqb s "").

(** The default of the [score] parameter of the two registration methods. *)
Definition default_score : Q := 8 # 10.

Section Sidebar.

Context {Registry : Type}.
Variable registry_add_recognizer :
  Registry → recognizer_dict → Registry * result unit.

(** The body under [if col1.button("Add Whitelist Rule")] (lines 116-121). *)
Definition on_add_whitelist (reg : Registry)
    (whitelist_name whitelist_examples : string) : Registry * result notice :=
  if truthy whitelist_name && truthy (strip whitelist_examples) then
    let examples :=
      strip <$> filter (λ x, truthy (strip x) = true)
                  (split newline (strip whitelist_examples)) in
    let '(reg', r) :=
      add_custom_whitelist registry_add_recognizer reg whitelist_name examples
        default_score in
    (reg', _ ← r; Ok (success whitelist_name))
  else (reg, Ok (error "Please enter tag name and examples")).

(** The body under [if col2.button("Add Regex Rule")] (lines 124-128). *)
Definition on_add_regex (reg : Registry) (regex_name regex_pattern : string)
    : Registry * result notice :=
  if truthy regex_name && truthy regex_pattern then
    let '(reg', r) :=
      add_custom_regex registry_add_recognizer reg regex_name regex_pattern
        default_score in
    (reg', _ ← r; Ok (success regex_name))
  else (reg, Ok (error "Please enter tag name and regex pattern")).

End Sidebar.

Arguments on_add_whitelist {Registry} _ _ _ _.
Arguments on_add_regex {Registry} _ _ _ _.

(** ** The highlighted text *)

(** [f"**[PII:{f.entity_type}]**"] (line 319) *)
Definition marker (f : RecognizerResult) : string :=
  "**[PII:" ++ entity_type f ++ "]**".

(** One pass of the loop of [display_results] (lines 317-321). *)
Definition highlight_step (highlighted : string) (f : RecognizerResult) : string :=
  slice_to highlighted (start f) ++ marker f ++ slice_from highlighted (end_ f).

(** The highlighted text of [display_results] (lines 315-321): the findings
    are taken last to first. *)
Definition highlight (original_text : string) (findings : list RecognizerResult)
    : string :=
  fold_left highlight_step (rev findings) original_text.

(** ** Vocabulary of the statements *)

(** A position [idx] in a column label [col] names a cell of [df]. *)
Definition addresses (df : DataFrame) (idx : Z) (col : string) : Prop :=
  - Z.of_nat (index_len df) ≤ idx < Z.of_nat (index_len df) ∧ col ∈ columns df.

(** A finding of [results] is about the cell of column [col] in row [i]. *)
Definition has_finding (results : list Finding) (df : DataFrame)
    (col : string) (i : nat) : Prop :=
  ∃ f, f ∈ results ∧ Column f = col ∧ iloc_pos (index_len df) (Row f) = Ok i.

(** A text unit of the scan: the column label, the position that
    [enumerate] gives the value, and the text [str(value)]. *)
Definition text_unit : Type := string * nat * string.

Definition column_units (col : string) (c : list cell) : list text_unit :=
  (λ iv : nat * cell, (col, iv.1, str iv.2)) <$> enumerate (dropna c).

Definition units (df : DataFrame) : list text_unit :=
  mjoin ((λ lc : string * list cell, column_units lc.1 lc.2) <$> series df).

Definition unit_findings (u : text_unit) (hits : list RecognizerResult)
    : list Finding :=
  map (finding_row u.1.1 u.1.2 u.2) hits.

Section ScanRelation.

Context {Registry : Type}.
Variable analyzer_analyze :
  Registry → string → list string → string → result (list RecognizerResult).
Variable reg : Registry.

(** The findings of a sequence of units: for each unit in turn, one row
    per detection the analyzer returns for its text, in the analyzer's
    order. *)
Inductive scans : list text_unit → list Finding → Prop :=
| scans_nil : scans [] []
| scans_cons u us hits fs :
    analyzer_analyze reg u.2 [] "en" = Ok hits →
    scans us fs →
    scans (u :: us) (unit_findings u hits ++ fs)%list.

End ScanRelation.

(** The reference for the highlighted text: one pass from left to right that
    copies the text up to each span, writes the span's marker, and copies the
    tail after the last span. *)
Fixpoint splice (text : string) (pos : Z) (findings : list RecognizerResult)
    : string :=
  match findings with
  | [] => slice_from text pos
  | f :: rest => slice text pos (start f) ++ marker f ++ splice text (end_ f) rest
  end.

(** The spans lie in [pos .. n], in ascending order, and each starts no
    earlier than the one before it ends. *)
Fixpoint ordered_from (pos n : Z) (findings : list RecognizerResult) : Prop :=
  match findings with
  | [] => pos ≤ n
  | f :: rest => pos ≤ start f ∧ start f ≤ end_ f ∧ ordered_from (end_ f) n rest
  end.

(** The characters of a string, and its length as a Python int. *)
Abbreviation chars := list_ascii_of_string (only parsing).
Abbreviation len s := (Z.of_nat (String.length s)) (only parsing).

(** ** The scan as one pass over the text units *)

Section ScanUnits.

Context {Registry : Type}.
Variable analyzer_analyze :
  Registry → string → list string → string → result (list RecognizerResult).
Variable reg : Registry.

(** The analyzer is called on the units in order; the first exception ends
    the scan. *)
Fixpoint scan_units (us : list text_unit) : result (list Finding) :=
  match us with
  | [] => Ok []
  | u :: us' =>
      hits ← analyzer_analyze reg u.2 [] "en";
      fs ← scan_units us';
      Ok (unit_findings u hits ++ fs)%list
  end.

End ScanUnits.


(** ** Strings of the file loader *)

(** [c.lower()] for the letters [A] to [Z]; the other characters the module
    passes (digits, blanks, the page icon of the radio labels) have no lower
    case. *)
Definition lower_char (c : ascii) : ascii :=
  let n := nat_of_ascii c in
  if ((65 <=? n) && (n <=? 90))%nat then ascii_of_nat (n + 32) else c.

(** [s.lower()] *)
Definition lower (s : string) : string :=
  string_of_list_ascii (lower_char <$> list_ascii_of_string s).

(** [needle in hay] *)
Definition contains (needle hay : string) : bool :=
  match index 0 needle hay with Some _ => true | None => false end.

(** The carriage return. *)
Definition carriage_return : ascii := "013"%char.

Fixpoint universal_newlines_chars (l : list ascii) : list ascii :=
  match l with
  | [] => []
  | c :: l' =>
      if Ascii.eqb c carriage_return then
        match l' with
        | d :: _ =>
            if Ascii.eqb d newline then universal_newlines_chars l'
            else newline :: universal_newlines_chars l'
        | [] => [newline]
        end
      else c :: universal_newlines_chars l'
  end.

(** What reading in text mode (the default [newline=None]) does to the line
    ends: a carriage return with its line feed, and a carriage return alone,
    are read as one line feed. *)
Definition universal_newlines (s : string) : string :=
  string_of_list_ascii (universal_newlines_chars (list_ascii_of_string s)).

(** [str(n)] for an int *)
Definition str_int (n : Z) : string := NilZero.string_of_int (Z.to_int n).

(** ** Uploaded files, the file system and the page *)

(** What [st.file_uploader] returns: the module reads [name] and
    [getvalue()]. *)
Record UploadedFile := {
  upload_name : string;
  upload_value : string
}.

(** What [load_file] returns as [content]: a frame or a text. *)
Inductive content :=
| Table (df : DataFrame)
| Document (text : string).

(** A row of the table of [display_results] (lines 305-310). *)
Record result_row := {
  row_type : string;
  row_text : string;
  row_confidence : string;
  row_location : string
}.

(** The elements the module puts on the page below the upload form; the
    fixed captions are left out. *)
Inductive widget :=
| subheader (filename : string)
| metric (value : nat)
| dataframe_view (rows : list Finding)
| download_button (data file_name mime : string)
| success_ready
| text_area (value : string)
| found_entities (n : nat)
| results_table (rows : list result_row)
| highlight_title
| markdown (body : string)
| no_pii.

(** The state one run of the script works on: the files on disk, the frame
    objects, and the page built so far. *)
Record session := {
  files : gmap string string;
  frames : gmap nat DataFrame;
  page : list widget
}.

Record app (A : Type) := App { run_app : session → session * result A }.
Arguments App {A} _.
Arguments run_app {A} _ _.

#[export] Instance app_ret : MRet app := λ A a, App (λ s, (s, Ok a)).

#[export] Instance app_bind : MBind app := λ A B k m,
  App (λ s, match run_app m s with
            | (s', Ok a) => run_app (k a) s'
            | (s', Raise e) => (s', Raise e)
            end).

(** A computation without effect on the session. *)
Definition compute {A} (r : result A) : app A := App (λ s, (s, r)).

(** A statement on the frame objects. *)
Definition on_frames {A} (m : stmt A) : app A :=
  App (λ s, let '(σ, r) := run m (frames s) in
            ({| files := files s; frames := σ; page := page s |}, r)).

(** A step on the file system. *)
Definition on_files {A}
    (f : gmap string string → gmap string string * result A) : app A :=
  App (λ s, let '(fs, r) := f (files s) in
            ({| files := fs; frames := frames s; page := page s |}, r)).

(** A call of [st.<element>(...)]. *)
Definition show (ws : list widget) : app unit :=
  App (λ s, ({| files := files s; frames := frames s;
                page := (page s ++ ws)%list |}, Ok tt)).

Section Script.

Context {Registry : Type}.

Variable analyzer_analyze :
  Registry → string → list string → string → result (list RecognizerResult).
Variable anonymizer_anonymize :
  string → list RecognizerResult → result EngineResult.
Variable reg : Registry.

(** [os.path.splitext(name)[1]] *)
Variable splitext_ext : string → string.

(** The name [tempfile.NamedTemporaryFile(delete=False, suffix=)] gives the
    file it creates, from the files that exist and the suffix. *)
Variable temp_name : gmap string string → string → string.

(** [pd.read_csv(path)], [PyPDFLoader(path).load()] as the [page_content]
    of the documents, [pd.read_json(path)], and the UTF-8 decoding of the
    bytes in [open(path, 'r', encoding='utf-8').read()], which raises when
    the bytes are no UTF-8. *)
Variable pd_read_csv : gmap string string → string → result DataFrame.
Variable pdf_load : gmap string string → string → result (list string).
Variable pd_read_json : gmap string string → string → result DataFrame.
Variable decode_utf8 : string → result string.

(** [f"{f.score:.2f}"] *)
Variable format_score : Q → string.

(** [df.to_csv(buffer, index=False)] and [buffer.getvalue()] *)
Variable to_csv : DataFrame → string.

(** The [try] block of [load_file] (lines 217-230). *)
Definition load_content (uploaded_file : UploadedFile) (file_type : string)
    (fs : gmap string string) (tmp_path : string) : result (content * string) :=
  content ←
    (if contains "csv" (lower file_type) then
       df ← pd_read_csv fs tmp_path; Ok (Table df)
     else if contains "pdf" (lower file_type) then
       docs ← pdf_load fs tmp_path; Ok (Document (String.concat " " docs))
     else if contains "json" (lower file_type) then
       df ← pd_read_json fs tmp_path; Ok (Table df)
     else
       match fs !! tmp_path with
       | Some bytes =>
           text ← decode_utf8 bytes; Ok (Document (universal_newlines text))
       | None => Raise (LibraryError "FileNotFoundError")
       end);
  Ok (content, upload_name uploaded_file).

(** [load_file] (lines 210-232): the upload is written to a new temporary
    file, read from there, and the file is removed in the [finally]
    clause. *)
Definition load_file (uploaded_file : UploadedFile) (file_type : string)
    (fs : gmap string string)
    : gmap string string * result (content * string) :=
  let tmp_path := temp_name fs (splitext_ext (upload_name uploaded_file)) in
  let fs1 := <[tmp_path := upload_value uploaded_file]> fs in
  let r := load_content uploaded_file file_type fs1 tmp_path in
  (delete tmp_path fs1, r).

(** The rows of the table of [display_results] (lines 305-310). *)
Definition result_rows (original_text : string)
    (findings : list RecognizerResult) : list result_row :=
  map (λ f, {| row_type := entity_type f;
               row_text := slice original_text (start f) (end_ f);
               row_confidence := format_score (score f);
               row_location := str_int (start f) ++ "-" ++ str_int (end_ f) |})
      findings.

(** [display_results] (lines 299-326) *)
Definition display_results (original_text : string)
    (findings : list RecognizerResult) : list widget :=
  match findings with
  | [] => [no_pii]
  | _ :: _ =>
      [ found_entities (length findings);
        results_table (result_rows original_text findings);
        highlight_title;
        markdown (highlight original_text findings) ]
  end.

(** The branch of [main] for a frame (lines 169-189). *)
Definition show_table (content : nat) (filename : string) : app unit :=
  fr ← on_frames (deref content);
  results_df ← compute (analyze_dataframe analyzer_analyze reg fr);
  _ ← show [subheader filename];
  _ ← show [metric (length results_df)];
  _ ← show [dataframe_view results_df];
  _ ← match results_df with
      | [] => mret tt
      | _ :: _ =>
          safe_df ← on_frames (anonymize_dataframe anonymizer_anonymize
                                 content results_df);
          safe ← on_frames (deref safe_df);
          show [download_button (to_csv safe) ("safe_" ++ filename) "text/csv"]
      end;
  show [success_ready].

(** The branch of [main] for a text (lines 192-208). *)
Definition show_text (content filename : string) : app unit :=
  results ← compute (analyze_text analyzer_analyze reg content);
  _ ← show [subheader filename];
  _ ← show (display_results content results);
  anonymized ← compute (anonymize_text anonymizer_anonymize content results);
  _ ← show [text_area anonymized];
  show [download_button anonymized ("safe_" ++ filename) "text/plain"].

(** The part of [main] that handles an uploaded file (lines 164-208). *)
Definition process_upload (uploaded_file : UploadedFile) (file_type : string)
    : app unit :=
  loaded ← on_files (load_file uploaded_file file_type);
  match loaded.1 with
  | Table df => content ← on_frames (alloc df); show_table content loaded.2
  | Document text => show_text text loaded.2
  end.

(** The quick scan of [main] (lines 158-161). *)
Definition quick_scan (quick_text : string) : app unit :=
  if truthy quick_text then
    results ← compute (analyze_text analyzer_analyze reg quick_text);
    show (display_results quick_text results)
  else mret tt.

End Script.

(** The labels of the radio of line 143, with the page icon U+1F4C4. *)
Definition page_icon : string :=
  String (ascii_of_nat 240) (String (ascii_of_nat 159)
    (String (ascii_of_nat 147) (String (ascii_of_nat 132) ""))).

Definition file_types : list string :=
  [ page_icon ++ " CSV"; page_icon ++ " PDF"; page_icon ++ " Text";
    page_icon ++ " JSON" ].

(** A download of the sanitized table. *)
Definition is_csv_download (w : widget) : Prop :=
  ∃ data file_name, w = download_button data file_name "text/csv".

(** ** Engines and tables used to run the definitions *)

Module Fixtures.

Definition email_hit : RecognizerResult :=
  {| entity_type := "EMAIL_ADDRESS"; start := 0; end_ := 7; score := 1 |}.

(** An analyzer that reports the address [a@x.com] and nothing else. *)
Definition email_analyzer (_ : unit) (text : string) (_ : list string)
    (_ : string) : result (list RecognizerResult) :=
  if String.eqb text "a@x.com" then Ok [email_hit] else Ok [].

(** An anonymizer that writes [<TYPE>] over the whole text when it is given
    a detection. *)
Definition tag_anonymizer (text : string) (findings : list RecognizerResult)
    : result EngineResult :=
  match findings with
  | [] => Ok {| text_ := text |}
  | f :: _ => Ok {| text_ := "<" ++ entity_type f ++ ">" |}
  end.

(** The table of the tabular example: two rows, one column. *)
Definition two_rows : DataFrame :=
  {| index_len := 2; series := [("email", [Val "a@x.com"; Val "none"])] |}.

(** The same column with the first cell missing. *)
Definition gap_then_email : DataFrame :=
  {| index_len := 2; series := [("email", [NaN; Val "a@x.com"])] |}.

(** A detection of the given type and span. *)
Definition hit (t : string) (s e : Z) : RecognizerResult :=
  {| entity_type := t; start := s; end_ := e; score := 1 |}.

(** A text with two addresses, at 5-12 and 16-23. *)
Definition two_mails : string := "mail a@x.com or b@y.org now".

Definition finding_at (col : string) (row : Z) : Finding :=
  {| Column := col; Row := row; PII_Type := "EMAIL_ADDRESS";
     Text := "a@x.com"; Score := 1; Start := 0; End_ := 7 |}.

End Fixtures.

(** ** Loaders used to run the script *)

Module Loaders.

(** A temporary name that no existing file has. *)
Definition unused_name (fs : gmap string string) (suffix : string) : string :=
  fresh (dom fs).

Definition ext (name : string) : string := ".csv".

(** Readers that give the two-row table whatever the file holds, a loader
    that gives two pages, and a decoder that takes the bytes as they are. *)
Definition read_table (fs : gmap string string) (path : string)
    : result DataFrame :=
  Ok Fixtures.two_rows.

Definition load_pages (fs : gmap string string) (path : string)
    : result (list string) :=
  Ok ["page one"; "page two"].

Definition decode (bytes : string) : result string := Ok bytes.

Definition two_decimals (q : Q) : string := "1.00".

Definition csv_of (df : DataFrame) : string := "email".

Definition upload : UploadedFile :=
  {| upload_name := "people.csv"; upload_value := "email" |}.

(** An upload with the three kinds of line end. *)
Definition mixed_line_ends : UploadedFile :=
  {| upload_name := "notes.text";
     upload_value :=
       "a" ++ String carriage_return (String newline "")
       ++ "b" ++ String carriage_return ""
       ++ "c" ++ String newline "" |}.

Definition empty_session : session :=
  {| files := ∅; frames := ∅; page := [] |}.

(** An analyzer that rejects the text [none] and finds nothing elsewhere,
    and one that rejects every text. *)
Definition picky_analyzer (_ : unit) (text : string) (_ : list string)
    (_ : string) : result (list RecognizerResult) :=
  if String.eqb text "none" then Raise (LibraryError "ValueError") else Ok [].

Definition broken_analyzer (_ : unit) (text : string) (_ : list string)
    (_ : string) : result (list RecognizerResult) :=
  Raise (LibraryError "ValueError").

(** A column of two missing cells. *)
Definition all_missing : DataFrame :=
  {| index_len := 2; series := [("email", [NaN; NaN])] |}.

Definition table_session : session :=
  {| files := ∅; frames := {[ 0%nat := Fixtures.two_rows ]}; page := [] |}.

End Loaders.

(** ** Running statements *)

Lemma run_bind {A B} (m : stmt A) (k : A → stmt B) σ :
  run (m ≫= k) σ =
  match run m σ with
  | (σ', Ok a) => run (k a) σ'
  | (σ', Raise e) => (σ', Raise e)
  end.
Proof. reflexivity. Qed.

Lemma run_pure {A} (r : result A) σ : run (pure r) σ = (σ, r).
Proof. reflexivity. Qed.

Lemma run_deref l σ df : σ !! l = Some df → run (deref l) σ = (σ, Ok df).
Proof. intros H. unfold deref. cbn. by rewrite H. Qed.

Lemma run_copy l σ df :
  σ !! l = Some df →
  run (copy l) σ = (<[fresh (dom σ) := df]> σ, Ok (fresh (dom σ))).
Proof. intros H. unfold copy. rewrite run_bind, (run_deref _ _ _ H). reflexivity. Qed.

Lemma fresh_not_in (σ : store) : σ !! fresh (dom σ) = None.
Proof. apply not_elem_of_dom, is_fresh. Qed.

Lemma load_RecognizerResult :
  load_global "RecognizerResult" = Raise (NameError "RecognizerResult").
Proof. reflexivity. Qed.

Section DetectorFacts.

Context {Registry : Type}.
Variable analyzer_analyze :
  Registry → string → list string → string → result (list RecognizerResult).
Variable anonymizer_anonymize :
  string → list RecognizerResult → result EngineResult.

(** One pass of the loop body over a copy whose content is [fr]: it stops
    at the subscript when the finding names no cell of the table, and at
    the name [RecognizerResult] otherwise; the store is not written. *)
Lemma run_anonymize_row df df_safe row σ fr :
  σ !! df_safe = Some fr →
  run (anonymize_row anonymizer_anonymize df df_safe row) σ =
  (σ, match iloc_row_getitem fr (Row row) (Column row) with
      | Ok _ => Raise (NameError "RecognizerResult")
      | Raise e => Raise e
      end).
Proof.
  intros H. unfold anonymize_row. cbn zeta.
  rewrite run_bind, (run_deref _ _ _ H), run_bind, run_pure.
  destruct (iloc_row_getitem fr (Row row) (Column row)); [|done].
  by rewrite run_bind, run_pure, load_RecognizerResult.
Qed.

Lemma run_anonymize_dataframe_nil df σ fr :
  σ !! df = Some fr →
  run (anonymize_dataframe anonymizer_anonymize df []) σ =
  (<[fresh (dom σ) := fr]> σ, Ok (fresh (dom σ))).
Proof.
  intros H. unfold anonymize_dataframe.
  rewrite run_bind, (run_copy _ _ _ H). reflexivity.
Qed.

Lemma run_anonymize_dataframe_cons df row rest σ fr :
  σ !! df = Some fr →
  run (anonymize_dataframe anonymizer_anonymize df (row :: rest)) σ =
  (<[fresh (dom σ) := fr]> σ,
   match iloc_row_getitem fr (Row row) (Column row) with
   | Ok _ => Raise (NameError "RecognizerResult")
   | Raise e => Raise e
   end).
Proof.
  intros H. unfold anonymize_dataframe.
  rewrite run_bind, (run_copy _ _ _ H), run_bind. cbn [for_stmt].
  rewrite run_bind, (run_anonymize_row _ _ _ _ fr) by apply lookup_insert_eq.
  by destruct (iloc_row_getitem fr (Row row) (Column row)).
Qed.

End DetectorFacts.

(** ** Addresses of cells *)

Lemma assoc_is_Some {A} (k : string) (l : list (string * A)) :
  k ∈ l.*1 → is_Some (assoc k l).
Proof.
  induction l as [|[k' a] l IH]; cbn; [by intros ?%elem_of_nil|].
  intros [->|Hin]%elem_of_cons.
  - rewrite String.eqb_refl. eauto.
  - destruct (String.eqb k k'); eauto.
Qed.

Lemma assoc_Some_elem {A} (k : string) (l : list (string * A)) a :
  assoc k l = Some a → (k, a) ∈ l.
Proof.
  induction l as [|[k' a'] l IH]; cbn; [done|].
  destruct (String.eqb_spec k k') as [->|Hne].
  - intros [= ->]. apply list_elem_of_here.
  - intros H. apply list_elem_of_further. auto.
Qed.

Lemma assoc_NoDup {A} (k : string) (l : list (string * A)) a :
  NoDup l.*1 → (k, a) ∈ l → assoc k l = Some a.
Proof.
  induction l as [|[k' a'] l IH]; cbn; [by intros _ ?%elem_of_nil|].
  intros [Hk' Hnd]%NoDup_cons [[= -> ->]|Hin]%elem_of_cons.
  - by rewrite String.eqb_refl.
  - destruct (String.eqb_spec k k') as [->|Hne]; [|by apply IH].
    exfalso. apply Hk'. apply list_elem_of_fmap. by exists (k', a).
Qed.

Lemma iloc_pos_ok n idx :
  - Z.of_nat n ≤ idx < Z.of_nat n → ∃ i, iloc_pos n idx = Ok i ∧ (i < n)%nat.
Proof.
  intros H. unfold iloc_pos.
  destruct (Z.leb_spec 0 idx), (Z.ltb_spec idx (Z.of_nat n)); cbn; try lia.
  - eexists; split; [done|lia].
  - destruct (Z.leb_spec (- Z.of_nat n) idx), (Z.ltb_spec idx 0); cbn; try lia.
    eexists; split; [done|lia].
Qed.

Lemma iloc_pos_inv n idx i :
  iloc_pos n idx = Ok i → - Z.of_nat n ≤ idx < Z.of_nat n.
Proof.
  unfold iloc_pos.
  destruct (Z.leb_spec 0 idx), (Z.ltb_spec idx (Z.of_nat n)); cbn; try lia;
  destruct (Z.leb_spec (- Z.of_nat n) idx), (Z.ltb_spec idx 0); cbn;
    try lia; done.
Qed.

Lemma iloc_row_getitem_ok df idx col :
  addresses df idx col → ∃ v, iloc_row_getitem df idx col = Ok v.
Proof.
  intros [Hidx Hcol]. unfold iloc_row_getitem.
  destruct (iloc_pos_ok _ _ Hidx) as (i & -> & _). cbn.
  unfold cell_at. destruct (assoc_is_Some col (series df) Hcol) as [c ->]. cbn.
  eauto.
Qed.

Lemma iloc_row_getitem_inv df idx col v :
  iloc_row_getitem df idx col = Ok v → addresses df idx col.
Proof.
  unfold iloc_row_getitem, addresses.
  destruct (iloc_pos (index_len df) idx) as [i|] eqn:Hi; cbn; [|done].
  apply iloc_pos_inv in Hi. unfold cell_at.
  destruct (assoc col (series df)) as [c|] eqn:Hc; cbn; [|done].
  intros _. split; [done|].
  apply assoc_Some_elem in Hc. apply list_elem_of_fmap. by exists (col, c).
Qed.

Lemma iloc_pos_out n idx :
  ¬ (- Z.of_nat n ≤ idx < Z.of_nat n) → iloc_pos n idx = Raise IndexError.
Proof.
  intros H. unfold iloc_pos.
  destruct (Z.leb_spec 0 idx), (Z.ltb_spec idx (Z.of_nat n)); cbn; try lia;
  destruct (Z.leb_spec (- Z.of_nat n) idx), (Z.ltb_spec idx 0); cbn;
    try lia; done.
Qed.

Lemma assoc_None {A} (k : string) (l : list (string * A)) :
  k ∉ l.*1 → assoc k l = None.
Proof.
  intros Hk. destruct (assoc k l) as [a|] eqn:Ha; [|done].
  exfalso. apply Hk. apply assoc_Some_elem in Ha.
  apply list_elem_of_fmap. by exists (k, a).
Qed.

(** ** The tabular rewrite *)

(** C5, as amended.  [anonymize_dataframe] applied to a table and a findings
    table with at least one row: when the first finding names a cell of the
    table (its [Row] a position of the table, its [Column] one of the
    labels), the call raises [NameError] for the name [RecognizerResult] at
    that finding; when it names no cell, the subscript of line 274 raises
    first, [IndexError] when [Row] is no position of the table and [KeyError]
    when [Row] is a position and [Column] is no label; and whatever the first
    finding is, the call raises and gives no table back. *)
Theorem anonymize_dataframe_name_error
    (anonymize : string → list RecognizerResult → result EngineResult)
    (σ : store) (df : loc) (fr : DataFrame) (row : Finding) (rest : list Finding) :
  σ !! df = Some fr →
  (addresses fr (Row row) (Column row) →
     (run (anonymize_dataframe anonymize df (row :: rest)) σ).2
     = Raise (NameError "RecognizerResult"))
  ∧ (¬ (- Z.of_nat (index_len fr) ≤ Row row < Z.of_nat (index_len fr)) →
     (run (anonymize_dataframe anonymize df (row :: rest)) σ).2
     = Raise IndexError)
  ∧ (- Z.of_nat (index_len fr) ≤ Row row < Z.of_nat (index_len fr) →
     Column row ∉ columns fr →
     (run (anonymize_dataframe anonymize df (row :: rest)) σ).2
     = Raise (KeyError (Column row)))
  ∧ is_ok (run (anonymize_dataframe anonymize df (row :: rest)) σ).2 = false.
Proof.
  intros Hdf. rewrite (run_anonymize_dataframe_cons _ _ _ _ _ _ Hdf). cbn [snd].
  split; [|split; [|split]].
  - intros [v ->]%iloc_row_getitem_ok. done.
  - intros Hout. unfold iloc_row_getitem. by rewrite iloc_pos_out.
  - intros Hin Hcol. unfold iloc_row_getitem, cell_at.
    destruct (iloc_pos_ok _ _ Hin) as (i & -> & _). cbn.
    by rewrite assoc_None.
  - by destruct (iloc_row_getitem fr (Row row) (Column row)).
Qed.

Lemma anonymize_dataframe_name_error_witness :
  (run (anonymize_dataframe Fixtures.tag_anonymizer 0%nat
          [Fixtures.finding_at "email" 0])
       {[ 0%nat := Fixtures.two_rows ]}).2
  = Raise (NameError "RecognizerResult").
Proof.
  refine (proj1 (anonymize_dataframe_name_error Fixtures.tag_anonymizer
                   {[ 0%nat := Fixtures.two_rows ]} 0%nat Fixtures.two_rows
                   (Fixtures.finding_at "email" 0) [] _) _).
  - reflexivity.
  - split; [cbn; lia|]. cbn. apply list_elem_of_here.
Defined.

(** C5, as stated, fails when the first finding names no row of the table:
    the subscript [df_safe.iloc[idx]] of line 274 raises [IndexError] before
    line 277 is reached. *)
Lemma anonymize_dataframe_index_error :
  (run (anonymize_dataframe Fixtures.tag_anonymizer 0%nat
          [Fixtures.finding_at "email" 5])
       {[ 0%nat := Fixtures.two_rows ]}).2
  = Raise IndexError.
Proof. vm_compute. reflexivity. Qed.

(** C4.  [anonymize_dataframe] never writes a frame that existed before the
    call, the input table included, whether it returns or raises; a table it
    returns is a new object with the shape and the column labels of the
    input, in which every cell that no finding is about holds its original
    value and every cell that differs from the original has a finding; and
    with an empty findings table it does return.  (With a finding the call
    raises at the first one, so the table it returns is always an unaltered
    copy.) *)
Theorem anonymize_dataframe_frame
    (anonymize : string → list RecognizerResult → result EngineResult)
    (σ : store) (df : loc) (fr : DataFrame) (results : list Finding) :
  σ !! df = Some fr →
  (results = [] →
     ∃ σ' out, run (anonymize_dataframe anonymize df results) σ = (σ', Ok out))
  ∧ ∀ σ' r, run (anonymize_dataframe anonymize df results) σ = (σ', r) →
      σ' !! df = Some fr
      ∧ (∀ l fr0, σ !! l = Some fr0 → σ' !! l = Some fr0)
      ∧ ∀ out, r = Ok out →
          σ !! out = None ∧ out ≠ df
          ∧ ∃ fr', σ' !! out = Some fr'
              ∧ shape fr' = shape fr
              ∧ columns fr' = columns fr
              ∧ (∀ col i, ¬ has_finding results fr col i →
                   cell_at fr' col i = cell_at fr col i)
              ∧ (∀ col i, cell_at fr' col i ≠ cell_at fr col i →
                   has_finding results fr col i).
Proof.
  intros Hdf.
  assert (Hkeep : ∀ l fr0, σ !! l = Some fr0 →
                    <[fresh (dom σ) := fr]> σ !! l = Some fr0).
  { intros l fr0 Hl. rewrite lookup_insert_ne; [done|].
    intros <-. by rewrite fresh_not_in in Hl. }
  split.
  - intros ->. rewrite (run_anonymize_dataframe_nil _ _ _ _ Hdf). eauto.
  - intros σ' r. destruct results as [|row rest].
    + rewrite (run_anonymize_dataframe_nil _ _ _ _ Hdf). intros [= <- <-].
      split; [by apply Hkeep|]. split; [done|].
      intros out [= <-]. split; [apply fresh_not_in|].
      split; [intros Heq; pose proof (fresh_not_in σ) as Hf; rewrite Heq in Hf; congruence|].
      exists fr. rewrite lookup_insert_eq. by repeat split.
    + rewrite (run_anonymize_dataframe_cons _ _ _ _ _ _ Hdf). intros [= <- <-].
      split; [by apply Hkeep|]. split; [done|].
      intros out. by destruct (iloc_row_getitem fr (Row row) (Column row)).
Qed.

Lemma anonymize_dataframe_frame_witness :
  (([] : list Finding) = [] →
     ∃ σ' out,
       run (anonymize_dataframe Fixtures.tag_anonymizer 0%nat [])
           {[ 0%nat := Fixtures.two_rows ]} = (σ', Ok out))
  ∧ ∀ σ' r,
      run (anonymize_dataframe Fixtures.tag_anonymizer 0%nat [])
          {[ 0%nat := Fixtures.two_rows ]} = (σ', r) →
      σ' !! 0%nat = Some Fixtures.two_rows
      ∧ (∀ l fr0, ({[ 0%nat := Fixtures.two_rows ]} : gmap nat DataFrame) !! l
                  = Some fr0 → σ' !! l = Some fr0)
      ∧ ∀ out, r = Ok out →
          ({[ 0%nat := Fixtures.two_rows ]} : gmap nat DataFrame) !! out = None
          ∧ out ≠ 0%nat
          ∧ ∃ fr', σ' !! out = Some fr'
              ∧ shape fr' = shape Fixtures.two_rows
              ∧ columns fr' = columns Fixtures.two_rows
              ∧ (∀ col i, ¬ has_finding [] Fixtures.two_rows col i →
                   cell_at fr' col i = cell_at Fixtures.two_rows col i)
              ∧ (∀ col i, cell_at fr' col i ≠ cell_at Fixtures.two_rows col i →
                   has_finding [] Fixtures.two_rows col i).
Proof.
  apply (anonymize_dataframe_frame Fixtures.tag_anonymizer
           {[ 0%nat := Fixtures.two_rows ]} 0%nat Fixtures.two_rows []).
  reflexivity.
Defined.

(** ** The tabular scan *)

Section Scan.

Context {Registry : Type}.
Variable analyzer_analyze :
  Registry → string → list string → string → result (list RecognizerResult).
Variable reg : Registry.

Lemma scans_app us1 us2 fs :
  scans analyzer_analyze reg (us1 ++ us2)%list fs ↔
  ∃ fs1 fs2, scans analyzer_analyze reg us1 fs1 ∧ scans analyzer_analyze reg us2 fs2 ∧ fs = (fs1 ++ fs2)%list.
Proof.
  revert fs. induction us1 as [|u us1 IH]; intros fs; cbn.
  - split.
    + intros H. exists [], fs. repeat split; [constructor|done].
    + intros (fs1 & fs2 & H1 & H2 & ->). by inversion H1; subst.
  - split.
    + intros H. inversion H as [|? ? hits fs' Hu Hrest]; subst.
      apply IH in Hrest as (fs1 & fs2 & H1 & H2 & ->).
      exists (unit_findings u hits ++ fs1)%list, fs2.
      repeat split; [by constructor|done|by rewrite <- app_assoc].
    + intros (fs1 & fs2 & H1 & H2 & ->).
      inversion H1 as [|? ? hits fs' Hu Hrest]; subst.
      rewrite <- app_assoc. constructor; [done|].
      apply IH. eauto.
Qed.

(** The inner loop over the values of one column. *)
Lemma for_analyze_value col (ivs : list (nat * cell)) results fs :
  Forall (λ iv, isna iv.2 = false) ivs →
  for_ ivs (analyze_value analyzer_analyze reg col) results = Ok fs ↔
  ∃ fs', scans analyzer_analyze reg ((λ iv : nat * cell, (col, iv.1, str iv.2)) <$> ivs) fs'
         ∧ fs = (results ++ fs')%list.
Proof.
  intros Hna. revert results. induction Hna as [|[idx v] ivs Hv _ IH];
    intros results; cbn [for_ fmap list_fmap].
  - split.
    + intros [= <-]. exists []. split; [constructor|by rewrite app_nil_r].
    + intros (fs' & H & ->). inversion H. by rewrite app_nil_r.
  - cbn in Hv. unfold analyze_value at 1. rewrite Hv.
    destruct (analyzer_analyze reg (str v) [] "en") as [hits|e] eqn:Hhits; cbn.
    + rewrite IH. split.
      * intros (fs' & H & ->).
        exists (unit_findings (col, idx, str v) hits ++ fs')%list.
        split; [by constructor|by rewrite <- app_assoc].
      * intros (fs' & H & ->).
        inversion H as [|? ? hits' fs'' Hu Hrest]; subst. cbn in Hu.
        rewrite Hhits in Hu. injection Hu as <-.
        exists fs''. split; [done|by rewrite <- app_assoc].
    + split; [done|].
      intros (fs' & H & _). inversion H as [|? ? hits' fs'' Hu Hrest]; subst.
      cbn in Hu. congruence.
Qed.

Lemma dropna_not_na c : Forall (λ v, isna v = false) (dropna c).
Proof. apply Forall_forall. by intros v [? _]%list_elem_of_filter. Qed.

Lemma enumerate_not_na (c : list cell) :
  Forall (λ v, isna v = false) c →
  Forall (λ iv : nat * cell, isna iv.2 = false) (enumerate c).
Proof.
  intros H. apply Forall_forall. intros [i v] Hin.
  unfold enumerate in Hin. apply elem_of_lookup_imap in Hin as (i' & v' & [= -> ->] & Hl).
  rewrite Forall_forall in H. apply H. by eapply list_elem_of_lookup_2.
Qed.

(** The outer loop over the columns. *)
Lemma for_columns df (ser : list (string * list cell)) results fs :
  (∀ col c, (col, c) ∈ ser → getitem df col = Ok c) →
  for_ ser.*1 (analyze_column analyzer_analyze reg df) results = Ok fs ↔
  ∃ fs', scans analyzer_analyze reg (mjoin ((λ lc : string * list cell,
                           column_units lc.1 lc.2) <$> ser)) fs'
         ∧ fs = (results ++ fs')%list.
Proof.
  revert results. induction ser as [|[col c] ser IH]; intros results Hget.
  - cbn. split.
    + intros [= <-]. exists []. split; [constructor|by rewrite app_nil_r].
    + intros (fs' & H & ->). inversion H. by rewrite app_nil_r.
  - rewrite !fmap_cons. cbn [for_ mjoin list_join fst snd].
    unfold analyze_column at 1.
    rewrite (Hget col c) by apply list_elem_of_here. cbn [mbind result_bind Py.bind].
    assert (Hrest : ∀ col' c', (col', c') ∈ ser → getitem df col' = Ok c').
    { intros. apply Hget. by apply list_elem_of_further. }
    pose proof (enumerate_not_na _ (dropna_not_na c)) as Hna.
    destruct (for_ (enumerate (dropna c))
                (analyze_value analyzer_analyze reg col) results)
      as [results'|e] eqn:Hcol; cbn.
    + apply for_analyze_value in Hcol as (fs1 & H1 & ->); [|done].
      rewrite (IH _ Hrest). split.
      * intros (fs2 & H2 & ->). exists (fs1 ++ fs2)%list.
        split; [|by rewrite <- app_assoc]. apply scans_app. eauto.
      * intros (fs' & H & ->). apply scans_app in H as (f1 & f2 & Hf1 & Hf2 & ->).
        assert (f1 = fs1) as ->.
        { assert (for_ (enumerate (dropna c))
                    (analyze_value analyzer_analyze reg col) results
                  = Ok (results ++ f1)%list) as Heq
            by (apply for_analyze_value; eauto).
          assert (for_ (enumerate (dropna c))
                    (analyze_value analyzer_analyze reg col) results
                  = Ok (results ++ fs1)%list) as Heq'
            by (apply for_analyze_value; eauto).
          rewrite Heq in Heq'. injection Heq' as Heq'.
          by apply app_inv_head in Heq'. }
        exists f2. split; [done|by rewrite <- app_assoc].
    + split; [done|].
      intros (fs' & H & ->). apply scans_app in H as (f1 & f2 & Hf1 & Hf2 & ->).
      assert (for_ (enumerate (dropna c))
                (analyze_value analyzer_analyze reg col) results
              = Ok (results ++ f1)%list) as Heq
        by (apply for_analyze_value; eauto).
      congruence.
Qed.

Lemma getitem_series df col c :
  NoDup (columns df) → (col, c) ∈ series df → getitem df col = Ok c.
Proof. intros Hnd Hin. unfold getitem. by rewrite (assoc_NoDup _ _ _ Hnd Hin). Qed.

(** [analyze_dataframe] returns exactly the findings of the table's units:
    one row per detection, column by column and value by value. *)
Lemma analyze_dataframe_scans df fs :
  NoDup (columns df) →
  analyze_dataframe analyzer_analyze reg df = Ok fs ↔ scans analyzer_analyze reg (units df) fs.
Proof.
  intros Hnd. unfold analyze_dataframe, columns, units.
  rewrite for_columns by (intros; by apply getitem_series).
  split; [by intros (fs' & H & ->)|eauto].
Qed.

End Scan.

(** ** Where a finding comes from *)

Lemma elem_of_column_units col c u :
  u ∈ column_units col c ↔
  ∃ idx v, u = (col, idx, str v) ∧ dropna c !! idx = Some v ∧ isna v = false.
Proof.
  unfold column_units, enumerate. rewrite list_elem_of_fmap. split.
  - intros ([i v] & -> & Hin).
    apply elem_of_lookup_imap in Hin as (i' & v' & [= -> ->] & Hl).
    exists i', v'. repeat split; [done|].
    apply list_elem_of_lookup_2 in Hl. by apply list_elem_of_filter in Hl as [? _].
  - intros (idx & v & -> & Hl & _). exists (idx, v). split; [done|].
    apply elem_of_lookup_imap. eauto.
Qed.

Lemma elem_of_units df u :
  u ∈ units df ↔
  ∃ col c idx v, (col, c) ∈ series df ∧ u = (col, idx, str v)
                 ∧ dropna c !! idx = Some v ∧ isna v = false.
Proof.
  unfold units. rewrite list_elem_of_join. split.
  - intros (us & Hu & Hus). apply list_elem_of_fmap in Hus as ([col c] & -> & Hin).
    apply elem_of_column_units in Hu as (idx & v & -> & Hl & Hv).
    exists col, c, idx, v. eauto.
  - intros (col & c & idx & v & Hin & -> & Hl & Hv).
    exists (column_units col c). split.
    + apply elem_of_column_units. eauto.
    + apply list_elem_of_fmap. by exists (col, c).
Qed.

Section Origin.

Context {Registry : Type}.
Variable analyzer_analyze :
  Registry → string → list string → string → result (list RecognizerResult).
Variable reg : Registry.

Lemma scans_elem us fs f :
  scans analyzer_analyze reg us fs → f ∈ fs →
  ∃ u hits hit, u ∈ us ∧ analyzer_analyze reg u.2 [] "en" = Ok hits
                ∧ hit ∈ hits ∧ f = finding_row u.1.1 u.1.2 u.2 hit.
Proof.
  induction 1 as [|u us hits fs Hu _ IH]; [by intros ?%elem_of_nil|].
  intros [Hin|Hin]%elem_of_app.
  - unfold unit_findings in Hin. apply list_elem_of_fmap in Hin as (hit & -> & Hhit).
    exists u, hits, hit. repeat split; [apply list_elem_of_here|done..].
  - destruct (IH Hin) as (u' & hits' & hit & Hu' & ? & ? & ?).
    exists u', hits', hit. repeat split; [by apply list_elem_of_further|done..].
Qed.

Lemma scans_length us fs :
  scans analyzer_analyze reg us fs →
  ∃ hitss, Forall2 (λ u hits, analyzer_analyze reg u.2 [] "en" = Ok hits) us hitss
           ∧ length fs = sum_list (length <$> hitss).
Proof.
  induction 1 as [|u us hits fs Hu _ (hitss & IH1 & IH2)].
  - exists []. split; [constructor|done].
  - exists (hits :: hitss). split; [by constructor|].
    rewrite length_app. unfold unit_findings. rewrite length_map. cbn. lia.
Qed.

(** A finding of a scan of the units of [df] comes from one detection in
    one of them. *)
Lemma scans_units_origin df fs f :
  scans analyzer_analyze reg (units df) fs →
  f ∈ fs →
  ∃ c idx v hits hit,
    (Column f, c) ∈ series df
    ∧ Row f = Z.of_nat idx
    ∧ dropna c !! idx = Some v ∧ isna v = false
    ∧ analyzer_analyze reg (str v) [] "en" = Ok hits ∧ hit ∈ hits
    ∧ f = finding_row (Column f) idx (str v) hit.
Proof.
  intros Hfs Hf.
  destruct (scans_elem _ _ _ Hfs Hf) as (u & hits & hit & Hu & Hhits & Hhit & ->).
  apply elem_of_units in Hu as (col & c & idx & v & Hin & -> & Hl & Hv).
  cbn in *. exists c, idx, v, hits, hit. by repeat split.
Qed.

(** X1.  Every row of the findings table of [df] is one detection of the
    analyzer in the text of one value that is present; its [Column] is the
    label of that value's column, and its [Row] is the position of the
    value among the values of the column that are present (the position in
    [df[col].dropna()]), not its position in the column. *)
Theorem analyze_dataframe_origin df fs f :
  NoDup (columns df) →
  analyze_dataframe analyzer_analyze reg df = Ok fs →
  f ∈ fs →
  ∃ c idx v hits hit,
    (Column f, c) ∈ series df
    ∧ Row f = Z.of_nat idx
    ∧ dropna c !! idx = Some v ∧ isna v = false
    ∧ analyzer_analyze reg (str v) [] "en" = Ok hits ∧ hit ∈ hits
    ∧ f = finding_row (Column f) idx (str v) hit.
Proof.
  intros Hnd Hfs Hf. apply analyze_dataframe_scans in Hfs; [|done].
  by apply (scans_units_origin df fs).
Qed.

(** X2.  The number of rows of the findings table is the number of detections
    the analyzer returned over the values that are present. *)
Theorem analyze_dataframe_count df fs :
  NoDup (columns df) →
  analyze_dataframe analyzer_analyze reg df = Ok fs →
  ∃ hitss,
    Forall2 (λ u hits, analyzer_analyze reg u.2 [] "en" = Ok hits)
      (units df) hitss
    ∧ length fs = sum_list (length <$> hitss).
Proof.
  intros Hnd Hfs. apply analyze_dataframe_scans in Hfs; [|done].
  by apply scans_length.
Qed.

Lemma dropna_length c : (length (dropna c) ≤ length c)%nat.
Proof. apply length_filter. Qed.

Lemma dropna_id c : Forall (λ v, isna v = false) c → dropna c = c.
Proof.
  induction 1 as [|v c Hv _ IH]; [done|].
  unfold dropna in *. rewrite filter_cons_True by done. by rewrite IH.
Qed.

(** Every finding of [analyze_dataframe] names a cell of the table. *)
Lemma analyze_dataframe_addresses df fs f :
  well_formed df →
  analyze_dataframe analyzer_analyze reg df = Ok fs →
  f ∈ fs →
  addresses df (Row f) (Column f).
Proof.
  intros [Hnd Hlen] Hfs Hf. apply analyze_dataframe_scans in Hfs; [|done].
  destruct (scans_units_origin _ _ _ Hfs Hf)
    as (c & idx & v & hits & hit & Hin & HRow & Hl & _).
  rewrite Forall_forall in Hlen. specialize (Hlen _ Hin). cbn in Hlen.
  apply lookup_lt_Some in Hl. pose proof (dropna_length c).
  split; [rewrite HRow; lia|].
  apply list_elem_of_fmap. by exists (Column f, c).
Qed.

(** X3.  In a table with no missing value, the [Row] of a finding is the
    position of the cell the detection was made in. *)
Theorem analyze_dataframe_row_without_missing df fs f :
  NoDup (columns df) →
  Forall (λ lc : string * list cell, Forall (λ v, isna v = false) lc.2)
    (series df) →
  analyze_dataframe analyzer_analyze reg df = Ok fs →
  f ∈ fs →
  ∃ idx text hits hit,
    Row f = Z.of_nat idx
    ∧ cell_at df (Column f) idx = Some (Val text)
    ∧ analyzer_analyze reg text [] "en" = Ok hits ∧ hit ∈ hits
    ∧ f = finding_row (Column f) idx text hit.
Proof.
  intros Hnd Hfull Hfs Hf. apply analyze_dataframe_scans in Hfs; [|done].
  destruct (scans_units_origin _ _ _ Hfs Hf)
    as (c & idx & v & hits & hit & Hin & HRow & Hl & Hv & Hhits & Hhit & Heq).
  rewrite Forall_forall in Hfull. specialize (Hfull _ Hin). cbn in Hfull.
  rewrite (dropna_id _ Hfull) in Hl.
  destruct v as [|text]; [done|]. cbn in *.
  exists idx, text, hits, hit. repeat split; try done.
  unfold cell_at. rewrite (assoc_NoDup _ _ _ Hnd Hin). cbn. by rewrite Hl.
Qed.

End Origin.

(** C7, at the table whose column [email] has a missing first cell and the
    address in its second cell.  For every analyzer that returns one
    detection for the address, [analyze_dataframe] returns one finding and
    tags it with [Row] 0, the position of the address in
    [df["email"].dropna()]; row 0 of the table holds the missing value and the
    address is in row 1. *)
Theorem analyze_dataframe_row_after_missing {Registry : Type}
    (analyze : Registry → string → list string → string
               → result (list RecognizerResult))
    (reg : Registry) (hit : RecognizerResult) :
  analyze reg "a@x.com" [] "en" = Ok [hit] →
  analyze_dataframe analyze reg Fixtures.gap_then_email
  = Ok [finding_row "email" 0 "a@x.com" hit]
  ∧ Row (finding_row "email" 0 "a@x.com" hit) = 0
  ∧ cell_at Fixtures.gap_then_email "email" 0 = Some NaN
  ∧ cell_at Fixtures.gap_then_email "email" 1 = Some (Val "a@x.com").
Proof.
  intros H. repeat split.
  lazy. rewrite H. reflexivity.
Qed.

Lemma analyze_dataframe_row_after_missing_witness :
  analyze_dataframe Fixtures.email_analyzer tt Fixtures.gap_then_email
  = Ok [Fixtures.finding_at "email" 0]
  ∧ Row (Fixtures.finding_at "email" 0) = 0
  ∧ cell_at Fixtures.gap_then_email "email" 0 = Some NaN
  ∧ cell_at Fixtures.gap_then_email "email" 1 = Some (Val "a@x.com").
Proof.
  apply (analyze_dataframe_row_after_missing Fixtures.email_analyzer tt
           Fixtures.email_hit).
  reflexivity.
Defined.

(** X6.  The tabular example: with an analyzer that detects the address and
    nothing in ["none"], the two-row table gives one finding, in row 0. *)
Example analyze_dataframe_two_rows :
  analyze_dataframe Fixtures.email_analyzer tt Fixtures.two_rows
  = Ok [Fixtures.finding_at "email" 0].
Proof. vm_compute. reflexivity. Qed.

(** X4.  The path of lines 170-180: the findings table of a table is handed to
    [anonymize_dataframe] together with that table when it has a row; the
    call then raises [NameError] at the first finding. *)
Theorem anonymize_dataframe_after_analyze {Registry : Type}
    (analyze : Registry → string → list string → string
               → result (list RecognizerResult))
    (anonymize : string → list RecognizerResult → result EngineResult)
    (reg : Registry) (σ : gmap nat DataFrame) (df : nat) (fr : DataFrame)
    (results_df : list Finding) :
  σ !! df = Some fr →
  well_formed fr →
  analyze_dataframe analyze reg fr = Ok results_df →
  results_df ≠ [] →
  (run (anonymize_dataframe anonymize df results_df) σ).2
  = Raise (NameError "RecognizerResult").
Proof.
  intros Hdf Hwf Hfs Hne. destruct results_df as [|row rest]; [done|].
  rewrite (run_anonymize_dataframe_cons _ _ _ _ _ _ Hdf). cbn [snd].
  destruct (iloc_row_getitem_ok fr (Row row) (Column row)) as [v ->]; [|done].
  eapply analyze_dataframe_addresses; [done..|apply list_elem_of_here].
Qed.

(** ** Slices of strings *)

Lemma chars_inj s1 s2 : chars s1 = chars s2 → s1 = s2.
Proof.
  intros H. rewrite <- (string_of_list_ascii_of_string s1),
    <- (string_of_list_ascii_of_string s2). by rewrite H.
Qed.

Lemma chars_app s1 s2 : chars (s1 ++ s2) = (chars s1 ++ chars s2)%list.
Proof. induction s1 as [|c s1 IH]; simpl; [done|by rewrite IH]. Qed.

Lemma chars_length s : length (chars s) = String.length s.
Proof. induction s as [|c s IH]; simpl; [done|by rewrite IH]. Qed.

Lemma chars_substring n m s :
  chars (substring n m s) = take m (drop n (chars s)).
Proof.
  revert n m. induction s as [|c s IH]; intros [|n] [|m]; simpl; try done.
  by rewrite IH.
Qed.

Lemma chars_slice s a b :
  0 ≤ a ≤ b → b ≤ len s →
  chars (slice s a b) = take (Z.to_nat (b - a)) (drop (Z.to_nat a) (chars s)).
Proof.
  intros Hab Hb. unfold slice, slice_bound.
  destruct (Z.ltb_spec a 0), (Z.ltb_spec b 0); try lia.
  rewrite !Z.min_l by lia. apply chars_substring.
Qed.

Lemma slice_length s a b :
  0 ≤ a ≤ b → b ≤ len s → len (slice s a b) = b - a.
Proof.
  intros Hab Hb. rewrite <- chars_length, chars_slice by done.
  rewrite length_take, length_drop, chars_length. lia.
Qed.

Lemma length_app_string s1 s2 : len (s1 ++ s2) = len s1 + len s2.
Proof. rewrite <- !chars_length, chars_app, length_app. lia. Qed.

Lemma slice_app_l p r a b :
  0 ≤ a ≤ b → b ≤ len p → slice (p ++ r) a b = slice p a b.
Proof.
  intros Hab Hb. apply chars_inj.
  rewrite !chars_slice by (rewrite ?length_app_string; lia).
  rewrite chars_app, drop_app_le by (rewrite chars_length; lia).
  apply take_app_le. rewrite length_drop, chars_length. lia.
Qed.

Lemma slice_from_app_l p r a :
  0 ≤ a ≤ len p → slice_from (p ++ r) a = slice_from p a ++ r.
Proof.
  intros Ha. apply chars_inj. unfold slice_from.
  rewrite chars_app, !chars_slice by (rewrite ?length_app_string; lia).
  rewrite chars_app, drop_app_le by (rewrite chars_length; lia).
  rewrite !take_ge; [done| |].
  - rewrite length_drop, chars_length. lia.
  - rewrite length_app, length_drop, !chars_length, length_app_string. lia.
Qed.

Lemma slice_split s p :
  0 ≤ p ≤ len s → s = slice_to s p ++ slice_from s p.
Proof.
  intros Hp. apply chars_inj. unfold slice_to, slice_from.
  rewrite chars_app, !chars_slice by lia.
  rewrite drop_0, Z.sub_0_r, (take_ge (drop _ _)).
  - by rewrite take_drop.
  - rewrite length_drop, chars_length. lia.
Qed.

Lemma slice_slice_to s p a b :
  0 ≤ a ≤ b → b ≤ p → p ≤ len s → slice (slice_to s p) a b = slice s a b.
Proof.
  intros Hab Hb Hp. rewrite (slice_split s p) at 2 by lia.
  symmetry. apply slice_app_l; [done|].
  unfold slice_to. rewrite slice_length; lia.
Qed.

Lemma string_app_assoc (s1 s2 s3 : string) : (s1 ++ s2) ++ s3 = s1 ++ s2 ++ s3.
Proof. apply chars_inj. by rewrite !chars_app, app_assoc. Qed.

Lemma ordered_from_le pos n fs : ordered_from pos n fs → pos ≤ n.
Proof.
  revert pos. induction fs as [|f fs IH]; intros pos; cbn; [done|].
  intros (? & ? & H%IH). lia.
Qed.

Lemma ordered_from_mono pos n m fs :
  n ≤ m → ordered_from pos n fs → ordered_from pos m fs.
Proof.
  intros Hnm. revert pos. induction fs as [|f fs IH]; intros pos; cbn; [lia|].
  intros (? & ? & H). eauto.
Qed.

Lemma ordered_from_snoc pos n fs f :
  ordered_from pos n (fs ++ [f]) ↔
  ordered_from pos (start f) fs ∧ start f ≤ end_ f ∧ end_ f ≤ n.
Proof.
  revert pos. induction fs as [|g fs IH]; intros pos; cbn.
  - tauto.
  - rewrite IH. tauto.
Qed.

(** The spans of [fs] lie in the prefix [p]: the text after it is copied
    as it is. *)
Lemma splice_app_l p r pos fs :
  0 ≤ pos → ordered_from pos (len p) fs →
  splice (p ++ r) pos fs = splice p pos fs ++ r.
Proof.
  revert pos. induction fs as [|f fs IH]; intros pos Hpos; cbn.
  - intros H. apply slice_from_app_l. lia.
  - intros (H1 & H2 & H3). pose proof (ordered_from_le _ _ _ H3).
    rewrite slice_app_l, IH by (done || lia).
    by rewrite !string_app_assoc.
Qed.

Lemma splice_snoc text pos fs f :
  0 ≤ pos → ordered_from pos (start f) fs →
  start f ≤ end_ f → end_ f ≤ len text →
  splice text pos (fs ++ [f])
  = splice (slice_to text (start f)) pos fs ++ marker f ++ slice_from text (end_ f).
Proof.
  intros Hpos Hord Hse Hend. revert pos Hpos Hord.
  induction fs as [|g fs IH]; intros pos Hpos; cbn.
  - intros H. f_equal. unfold slice_from.
    assert (len (slice_to text (start f)) = start f) as ->
      by (unfold slice_to; rewrite slice_length; lia).
    symmetry. apply slice_slice_to; lia.
  - intros (H1 & H2 & H3). pose proof (ordered_from_le _ _ _ H3).
    rewrite IH by (done || lia).
    rewrite slice_slice_to by lia. by rewrite !string_app_assoc.
Qed.

Lemma highlight_snoc text fs f :
  highlight text (fs ++ [f]) = highlight (highlight_step text f) fs.
Proof. unfold highlight. by rewrite rev_unit. Qed.

(** X5.  For findings in ascending order that do not overlap and lie within
    the text, the loop of [display_results] yields the text with each span
    replaced by its marker and everything outside the spans copied in
    order. *)
Theorem highlight_splice text findings :
  ordered_from 0 (len text) findings →
  highlight text findings = splice text 0 findings.
Proof.
  revert text. induction findings as [|f fs IH] using rev_ind; intros text.
  - intros _. cbn. unfold slice_from. apply chars_inj.
    rewrite chars_slice by lia. rewrite drop_0, take_ge; [done|].
    rewrite chars_length. lia.
  - intros (Hfs & Hse & Hend)%ordered_from_snoc.
    pose proof (ordered_from_le _ _ _ Hfs) as Hs.
    assert (Hlen : len (slice_to text (start f)) = start f).
    { unfold slice_to. rewrite slice_length; lia. }
    rewrite highlight_snoc, IH.
    + unfold highlight_step. rewrite splice_app_l by (rewrite ?Hlen; done).
      by rewrite splice_snoc.
    + eapply ordered_from_mono; [|exact Hfs].
      unfold highlight_step. rewrite length_app_string, Hlen. lia.
Qed.

Lemma highlight_splice_witness :
  highlight Fixtures.two_mails
    [Fixtures.hit "EMAIL_ADDRESS" 5 12; Fixtures.hit "EMAIL_ADDRESS" 16 23]
  = splice Fixtures.two_mails 0
      [Fixtures.hit "EMAIL_ADDRESS" 5 12; Fixtures.hit "EMAIL_ADDRESS" 16 23].
Proof.
  apply highlight_splice. cbn. lia.
Defined.

(** What the loop yields on that text. *)
Example highlight_two_mails :
  highlight Fixtures.two_mails
    [Fixtures.hit "EMAIL_ADDRESS" 5 12; Fixtures.hit "EMAIL_ADDRESS" 16 23]
  = "mail **[PII:EMAIL_ADDRESS]** or **[PII:EMAIL_ADDRESS]** now".
Proof. vm_compute. reflexivity. Qed.

(** ** The theorems at the example tables *)

Lemma analyze_dataframe_origin_witness :
  ∃ c idx v hits hit,
    (Column (Fixtures.finding_at "email" 0), c) ∈ series Fixtures.gap_then_email
    ∧ Row (Fixtures.finding_at "email" 0) = Z.of_nat idx
    ∧ dropna c !! idx = Some v ∧ isna v = false
    ∧ Fixtures.email_analyzer tt (str v) [] "en" = Ok hits ∧ hit ∈ hits
    ∧ Fixtures.finding_at "email" 0
      = finding_row (Column (Fixtures.finding_at "email" 0)) idx (str v) hit.
Proof.
  apply (analyze_dataframe_origin Fixtures.email_analyzer tt
           Fixtures.gap_then_email [Fixtures.finding_at "email" 0]).
  - apply NoDup_singleton.
  - vm_compute. reflexivity.
  - apply list_elem_of_here.
Defined.

Lemma analyze_dataframe_count_witness :
  ∃ hitss,
    Forall2 (λ u hits, Fixtures.email_analyzer tt u.2 [] "en" = Ok hits)
      (units Fixtures.two_rows) hitss
    ∧ length [Fixtures.finding_at "email" 0] = sum_list (length <$> hitss).
Proof.
  apply (analyze_dataframe_count Fixtures.email_analyzer tt Fixtures.two_rows).
  - apply NoDup_singleton.
  - vm_compute. reflexivity.
Defined.

Lemma analyze_dataframe_row_without_missing_witness :
  ∃ idx text hits hit,
    Row (Fixtures.finding_at "email" 0) = Z.of_nat idx
    ∧ cell_at Fixtures.two_rows (Column (Fixtures.finding_at "email" 0)) idx
      = Some (Val text)
    ∧ Fixtures.email_analyzer tt text [] "en" = Ok hits ∧ hit ∈ hits
    ∧ Fixtures.finding_at "email" 0
      = finding_row (Column (Fixtures.finding_at "email" 0)) idx text hit.
Proof.
  apply (analyze_dataframe_row_without_missing Fixtures.email_analyzer tt
           Fixtures.two_rows [Fixtures.finding_at "email" 0]).
  - apply NoDup_singleton.
  - repeat constructor.
  - vm_compute. reflexivity.
  - apply list_elem_of_here.
Defined.

Lemma anonymize_dataframe_after_analyze_witness :
  (run (anonymize_dataframe Fixtures.tag_anonymizer 0%nat
          [Fixtures.finding_at "email" 0])
       {[ 0%nat := Fixtures.two_rows ]}).2
  = Raise (NameError "RecognizerResult").
Proof.
  apply (anonymize_dataframe_after_analyze Fixtures.email_analyzer
           Fixtures.tag_anonymizer tt {[ 0%nat := Fixtures.two_rows ]} 0%nat
           Fixtures.two_rows).
  - reflexivity.
  - split; [apply NoDup_singleton|repeat constructor].
  - vm_compute. reflexivity.
  - discriminate.
Defined.

(** ** The rule form *)

Lemma lstrip_chars_nil l : lstrip_chars l = [] ↔ Forall (λ c, isspace c = true) l.
Proof.
  induction l as [|c l IH]; cbn; [by split; [constructor|]|].
  destruct (isspace c) eqn:Hc.
  - rewrite IH. split; [by constructor|by inversion 1].
  - split; [done|]. inversion 1; congruence.
Qed.

Lemma lstrip_chars_suffix l : ∃ k, l = (k ++ lstrip_chars l)%list ∧ Forall (λ c, isspace c = true) k.
Proof.
  induction l as [|c l (k & Hk & Hs)]; cbn; [by exists []|].
  destruct (isspace c) eqn:Hc.
  - exists (c :: k). split; [by rewrite <- app_comm_cons, <- Hk|by constructor].
  - by exists [].
Qed.

Lemma strip_chars_nil l : strip_chars l = [] ↔ Forall (λ c, isspace c = true) l.
Proof.
  unfold strip_chars. split.
  - intros H. apply (f_equal (@rev ascii)) in H. rewrite rev_involutive in H. cbn in H.
    apply lstrip_chars_nil in H. apply Forall_rev in H. rewrite rev_involutive in H.
    destruct (lstrip_chars_suffix l) as (k & Hk & Hs). rewrite Hk.
    by apply Forall_app.
  - intros H.
    assert (lstrip_chars l = []) as -> by by apply lstrip_chars_nil.
    done.
Qed.

Lemma split_chars_elem sep l c :
  c ∈ l → c ≠ sep → ∃ line, line ∈ split_chars sep l ∧ c ∈ line.
Proof.
  intros Hin Hne. induction l as [|d l IH]; [by apply elem_of_nil in Hin|].
  cbn. destruct (Ascii.eqb_spec d sep) as [->|Hd].
  - apply elem_of_cons in Hin as [->|Hin]; [done|].
    destruct (IH Hin) as (line & ? & ?). exists line. split; [by apply list_elem_of_further|done].
  - apply elem_of_cons in Hin as [->|Hin].
    + destruct (split_chars sep l); eexists; (split; [apply list_elem_of_here|apply list_elem_of_here]).
    + destruct (IH Hin) as (line & Hl & Hc).
      destruct (split_chars sep l) as [|line0 lines]; [by apply elem_of_nil in Hl|].
      apply elem_of_cons in Hl as [->|Hl].
      * exists (d :: line0). split; [apply list_elem_of_here|by apply list_elem_of_further].
      * exists line. split; [by apply list_elem_of_further|done].
Qed.

Lemma lstrip_chars_head l c k : lstrip_chars l = c :: k → isspace c = false.
Proof.
  induction l as [|d l IH]; cbn; [done|].
  destruct (isspace d) eqn:Hd; [done|]. by intros [= <- _].
Qed.

Lemma strip_chars_nonspace l :
  strip_chars l ≠ [] → ∃ c, c ∈ strip_chars l ∧ isspace c = false.
Proof.
  unfold strip_chars. intros H.
  destruct (lstrip_chars (rev (lstrip_chars l))) as [|c k] eqn:Hk; [done|].
  exists c. split; [|by eapply lstrip_chars_head].
  apply list_elem_of_In, in_rev. rewrite rev_involutive. by left.
Qed.

Lemma truthy_true s : truthy s = true ↔ s ≠ "".
Proof. unfold truthy. by destruct (String.eqb_spec s ""). Qed.

Lemma string_of_list_ascii_nil l : string_of_list_ascii l = "" ↔ l = [].
Proof. by destruct l. Qed.

Lemma elem_of_split sep s c :
  c ∈ list_ascii_of_string s → c ≠ sep →
  ∃ line, line ∈ split sep s ∧ c ∈ list_ascii_of_string line.
Proof.
  intros Hc Hne. destruct (split_chars_elem sep _ c Hc Hne) as (line & Hl & Hcl).
  exists (string_of_list_ascii line). split.
  - unfold split. apply list_elem_of_fmap. eauto.
  - by rewrite list_ascii_of_string_of_list_ascii.
Qed.

Lemma strip_nonempty s c :
  c ∈ list_ascii_of_string s → isspace c = false → strip s ≠ "".
Proof.
  intros Hc Hs. unfold strip. rewrite string_of_list_ascii_nil, strip_chars_nil.
  rewrite Forall_forall. intros H. specialize (H c Hc). congruence.
Qed.

(** X7.  The whitelist form (lines 116-121).  With an empty tag name or an
    examples text that is blank, the registry is not called and stays as it
    is, nothing is raised, and the error notice is shown.  Otherwise the rule
    handed to [add_custom_whitelist] has the tag name as written and a list
    of examples that is not empty and holds no empty string. *)
Theorem on_add_whitelist_guard {Registry : Type}
    (add : Registry → recognizer_dict → Registry * result unit)
    (reg : Registry) (whitelist_name whitelist_examples : string) :
  (whitelist_name = "" ∨ strip whitelist_examples = "" →
     on_add_whitelist add reg whitelist_name whitelist_examples
     = (reg, Ok (error "Please enter tag name and examples")))
  ∧ (whitelist_name ≠ "" → strip whitelist_examples ≠ "" →
     ∃ examples,
       examples ≠ [] ∧ Forall (λ x, x ≠ "") examples
       ∧ on_add_whitelist add reg whitelist_name whitelist_examples
         = ((add_custom_whitelist add reg whitelist_name examples default_score).1,
            _ ← (add_custom_whitelist add reg whitelist_name examples
                   default_score).2;
            Ok (success whitelist_name))).
Proof.
  unfold on_add_whitelist. split.
  - intros [-> | ->]; [done|]. by rewrite andb_false_r.
  - intros Hn%truthy_true Ht. rewrite Hn. pose proof Ht as ->%truthy_true. cbn [andb].
    exists (strip <$> filter (λ x, truthy (strip x) = true)
                        (split newline (strip whitelist_examples))).
    split; [|split; [|by destruct (add_custom_whitelist _ _ _ _ _)]].
    + assert (strip_chars (list_ascii_of_string whitelist_examples) ≠ []) as Hne
        by (by intros Heq; apply Ht; unfold strip; rewrite Heq).
      apply strip_chars_nonspace in Hne as (c & Hc & Hs).
      assert (c ∈ list_ascii_of_string (strip whitelist_examples)) as Hc'
        by (unfold strip; by rewrite list_ascii_of_string_of_list_ascii).
      destruct (elem_of_split newline _ c Hc') as (line & Hl & Hcl);
        [by intros ->|].
      intros Hnil. apply fmap_nil_inv in Hnil.
      assert (line ∈ filter (λ x, truthy (strip x) = true)
                (split newline (strip whitelist_examples))) as Hin.
      { apply list_elem_of_filter. split; [|done].
        apply truthy_true. by eapply strip_nonempty. }
      rewrite Hnil in Hin. by apply elem_of_nil in Hin.
    + apply Forall_fmap, Forall_forall. intros x [Hx _]%list_elem_of_filter.
      by apply truthy_true.
Qed.

(** The form with its default content. *)
Example on_add_whitelist_default :
  on_add_whitelist (λ reg r, (r :: reg, Ok tt)) [] "SCHOOL_ID"
    "223j1ao5g
school123
student456"
  = ([ {| name := "SCHOOL_ID"; supported_entity := "SCHOOL_ID";
          supported_language := "en"; deny_list := []; context := Some [];
          patterns := [];
          whitelist_patterns :=
            Some [ {| words := ["223j1ao5g"; "school123"; "student456"];
                      whitelist_score := default_score |} ] |} ],
     Ok (success "SCHOOL_ID")).
Proof. vm_compute. reflexivity. Qed.

(** The regex form does not look into the pattern: one that is no regular
    expression reaches the registry as written. *)
Example on_add_regex_unbalanced :
  on_add_regex (λ reg r, (r :: reg, Ok tt)) [] "CUSTOM_ID" "[A-Z"
  = ([ {| name := "CUSTOM_ID"; supported_entity := "CUSTOM_ID";
          supported_language := "en"; deny_list := []; context := None;
          patterns := [ {| regex := "[A-Z"; pattern_score := default_score |} ];
          whitelist_patterns := None |} ],
     Ok (success "CUSTOM_ID")).
Proof. vm_compute. reflexivity. Qed.

(** ** Slices with any bounds *)

Lemma slice_bound_range n i : 0 ≤ n → 0 ≤ slice_bound n i ≤ n.
Proof. intros Hn. unfold slice_bound. destruct (Z.ltb_spec i 0); lia. Qed.

Lemma chars_slice_bounds s a b :
  chars (slice s a b)
  = take (Z.to_nat (slice_bound (len s) b - slice_bound (len s) a))
      (drop (Z.to_nat (slice_bound (len s) a)) (chars s)).
Proof. unfold slice. apply chars_substring. Qed.

(** A slice is a piece of the string, whatever the bounds. *)
Lemma slice_piece s a b : ∃ pre post, s = pre ++ slice s a b ++ post.
Proof.
  set (lo := Z.to_nat (slice_bound (len s) a)).
  set (m := Z.to_nat (slice_bound (len s) b - slice_bound (len s) a)).
  exists (string_of_list_ascii (take lo (chars s))),
         (string_of_list_ascii (drop m (drop lo (chars s)))).
  apply chars_inj.
  rewrite !chars_app, chars_slice_bounds, !list_ascii_of_string_of_list_ascii.
  fold lo m. by rewrite take_drop, take_drop.
Qed.

Lemma slice_length_bounds s a b :
  len (slice s a b)
  = Z.max 0 (slice_bound (len s) b - slice_bound (len s) a).
Proof.
  rewrite <- chars_length, chars_slice_bounds.
  rewrite length_take, length_drop, chars_length.
  pose proof (slice_bound_range (len s) a ltac:(lia)).
  pose proof (slice_bound_range (len s) b ltac:(lia)). lia.
Qed.

Lemma slice_three s a b :
  0 ≤ a ≤ b → b ≤ len s →
  s = slice_to s a ++ slice s a b ++ slice_from s b.
Proof.
  intros Hab Hb. rewrite (slice_split s a) at 1 by lia. f_equal.
  apply chars_inj. unfold slice_from.
  rewrite chars_app, !chars_slice by lia.
  rewrite (take_ge (drop (Z.to_nat b) _)) by (rewrite length_drop, chars_length; lia).
  rewrite (take_ge (drop (Z.to_nat a) _)) by (rewrite length_drop, chars_length; lia).
  replace (Z.to_nat b) with (Z.to_nat a + Z.to_nat (b - a))%nat by lia.
  by rewrite <- drop_drop, take_drop.
Qed.

(** ** The scan as a function of the text units *)

Section ScanFunction.

Context {Registry : Type}.
Variable analyzer_analyze :
  Registry → string → list string → string → result (list RecognizerResult).
Variable reg : Registry.

Lemma for_analyze_value_scan col (ivs : list (nat * cell)) results :
  Forall (λ iv, isna iv.2 = false) ivs →
  for_ ivs (analyze_value analyzer_analyze reg col) results
  = fs ← scan_units analyzer_analyze reg
          ((λ iv : nat * cell, (col, iv.1, str iv.2)) <$> ivs);
    Ok (results ++ fs)%list.
Proof.
  intros Hna. revert results. induction Hna as [|[idx v] ivs Hv _ IH];
    intros results.
  - cbn. by rewrite app_nil_r.
  - rewrite fmap_cons. cbn [for_ scan_units fst snd]. cbn in Hv.
    unfold analyze_value at 1. rewrite Hv.
    destruct (analyzer_analyze reg (str v) [] "en") as [hits|e]; cbn; [|done].
    rewrite IH.
    destruct (scan_units analyzer_analyze reg _) as [fs|e]; cbn; [|done].
    by rewrite <- app_assoc.
Qed.

Lemma scan_units_app us1 us2 :
  scan_units analyzer_analyze reg (us1 ++ us2)%list
  = fs1 ← scan_units analyzer_analyze reg us1;
    fs2 ← scan_units analyzer_analyze reg us2;
    Ok (fs1 ++ fs2)%list.
Proof.
  induction us1 as [|u us1 IH]; cbn.
  - by destruct (scan_units analyzer_analyze reg us2).
  - destruct (analyzer_analyze reg u.2 [] "en") as [hits|e]; cbn; [|done].
    rewrite IH.
    destruct (scan_units analyzer_analyze reg us1) as [fs1|e]; cbn; [|done].
    destruct (scan_units analyzer_analyze reg us2) as [fs2|e]; cbn; [|done].
    by rewrite <- app_assoc.
Qed.

Lemma for_columns_scan df (ser : list (string * list cell)) results :
  (∀ col c, (col, c) ∈ ser → getitem df col = Ok c) →
  for_ ser.*1 (analyze_column analyzer_analyze reg df) results
  = fs ← scan_units analyzer_analyze reg
          (mjoin ((λ lc : string * list cell,
                     column_units lc.1 lc.2) <$> ser));
    Ok (results ++ fs)%list.
Proof.
  revert results. induction ser as [|[col c] ser IH]; intros results Hget.
  - cbn. by rewrite app_nil_r.
  - rewrite !fmap_cons. cbn [for_ mjoin list_join fst snd].
    unfold analyze_column at 1.
    rewrite (Hget col c) by apply list_elem_of_here.
    cbn [mbind result_bind Py.bind].
    rewrite for_analyze_value_scan
      by apply enumerate_not_na, dropna_not_na.
    rewrite scan_units_app. fold (column_units col c).
    destruct (scan_units analyzer_analyze reg (column_units col c))
      as [fs1|e]; cbn; [|done].
    rewrite IH by (intros; apply Hget; by apply list_elem_of_further).
    destruct (scan_units analyzer_analyze reg _) as [fs2|e]; cbn; [|done].
    by rewrite <- app_assoc.
Qed.

(** [analyze_dataframe] is the scan of the table's units, exceptions
    included. *)
Lemma analyze_dataframe_scan_units df :
  NoDup (columns df) →
  analyze_dataframe analyzer_analyze reg df
  = scan_units analyzer_analyze reg (units df).
Proof.
  intros Hnd. unfold analyze_dataframe, columns, units.
  rewrite for_columns_scan by (intros; by apply getitem_series).
  by destruct (scan_units analyzer_analyze reg _).
Qed.

Lemma scan_units_raise us e :
  scan_units analyzer_analyze reg us = Raise e ↔
  ∃ us1 u us2,
    us = (us1 ++ u :: us2)%list
    ∧ Forall (λ u', is_ok (analyzer_analyze reg u'.2 [] "en") = true) us1
    ∧ analyzer_analyze reg u.2 [] "en" = Raise e.
Proof.
  induction us as [|u us IH]; cbn.
  - split; [done|]. intros (us1 & u & us2 & H & _). by destruct us1.
  - destruct (analyzer_analyze reg u.2 [] "en") as [hits|e'] eqn:Hu; cbn.
    + assert (Hrest :
        (∃ us1 u0 us2,
           u :: us = (us1 ++ u0 :: us2)%list
           ∧ Forall (λ u', is_ok (analyzer_analyze reg u'.2 [] "en") = true) us1
           ∧ analyzer_analyze reg u0.2 [] "en" = Raise e)
        ↔ scan_units analyzer_analyze reg us = Raise e).
      { rewrite IH. split.
        - intros (us1 & u0 & us2 & Heq & Hok & Hraise).
          destruct us1 as [|u1 us1]; cbn in Heq; injection Heq as <- ->.
          + congruence.
          + apply Forall_cons in Hok as [_ Hok]. eauto 6.
        - intros (us1 & u0 & us2 & -> & Hok & Hraise).
          exists (u :: us1), u0, us2. repeat split; [|done].
          constructor; [by rewrite Hu|done]. }
      rewrite Hrest.
      destruct (scan_units analyzer_analyze reg us) as [fs|e'']; cbn; [done|].
      split; by intros [= ->].
    + split.
      * intros [= ->]. exists [], u, us. by repeat split.
      * intros (us1 & u' & us2 & Heq & Hok & Hraise).
        destruct us1 as [|u1 us1]; cbn in Heq; injection Heq as <- ->.
        -- congruence.
        -- apply Forall_cons in Hok as [Hok _]. by rewrite Hu in Hok.
Qed.

(** X10.  On a table of scalar cells with distinct labels, a failure of the
    analyzer is not isolated and is the only failure there is:
    [analyze_dataframe] raises [e] exactly when the first text unit, column
    by column and value by value, for which the analyzer raises makes it
    raise [e]; the findings of the units before it are not returned. *)
Theorem analyze_dataframe_raises df e :
  NoDup (columns df) →
  analyze_dataframe analyzer_analyze reg df = Raise e ↔
  ∃ us1 u us2,
    units df = (us1 ++ u :: us2)%list
    ∧ Forall (λ u', is_ok (analyzer_analyze reg u'.2 [] "en") = true) us1
    ∧ analyzer_analyze reg u.2 [] "en" = Raise e.
Proof.
  intros Hnd. rewrite analyze_dataframe_scan_units by done.
  apply scan_units_raise.
Qed.

(** X11.  A table with distinct labels in which every cell is missing, a
    table without rows or without columns included, has an empty findings
    table, and the analyzer is not consulted: the result is the same for
    every analyzer. *)
Theorem analyze_dataframe_all_missing df :
  NoDup (columns df) →
  Forall (λ lc : string * list cell, Forall (λ v, v = NaN) lc.2) (series df) →
  analyze_dataframe analyzer_analyze reg df = Ok [].
Proof.
  intros _ Hall. unfold analyze_dataframe.
  assert (Hcols : ∀ col, col ∈ columns df →
            analyze_column analyzer_analyze reg df col [] = Ok []).
  { intros col Hcol. unfold analyze_column, getitem.
    destruct (assoc_is_Some col (series df) Hcol) as [c Hc]. rewrite Hc. cbn.
    apply assoc_Some_elem in Hc. rewrite Forall_forall in Hall.
    specialize (Hall _ Hc). cbn in Hall.
    assert (dropna c = []) as ->; [|done].
    clear Hc. unfold dropna. induction Hall as [|v c -> _ IH]; [done|].
    rewrite filter_cons_False; [exact IH|cbn; congruence]. }
  induction (columns df) as [|col cols IH]; [done|].
  cbn. rewrite Hcols by apply list_elem_of_here. cbn.
  apply IH. intros. apply Hcols. by apply list_elem_of_further.
Qed.

(** X9.  The [Text] of a finding is cut from the value the detection was
    made in, the value at position [Row] among the present values of column
    [Column], at the offsets the analyzer reported, which are its [Start]
    and [End].  It is a piece of that text whatever the offsets are; when
    they lie in the text, with [Start] not after [End], it is the piece that
    starts at [Start] and has [End - Start] characters. *)
Theorem analyze_dataframe_text df fs f :
  NoDup (columns df) →
  analyze_dataframe analyzer_analyze reg df = Ok fs →
  f ∈ fs →
  ∃ c idx text hits hit before after,
    (Column f, c) ∈ series df
    ∧ Row f = Z.of_nat idx
    ∧ dropna c !! idx = Some (Val text)
    ∧ analyzer_analyze reg text [] "en" = Ok hits ∧ hit ∈ hits
    ∧ Start f = start hit ∧ End_ f = end_ hit
    ∧ Text f = slice text (Start f) (End_ f)
    ∧ text = before ++ Text f ++ after
    ∧ (0 ≤ Start f ≤ End_ f → End_ f ≤ len text →
       len before = Start f ∧ len (Text f) = End_ f - Start f).
Proof.
  intros Hnd Hfs Hf. apply analyze_dataframe_scans in Hfs; [|done].
  destruct (scans_elem _ _ _ _ _ Hfs Hf) as (u & hits & hit & Hu & Hhits & Hhit & ->).
  apply elem_of_units in Hu as (col & c & idx & v & Hin & -> & Hl & Hv).
  destruct v as [|text]; [done|].
  cbn [fst snd str Column Row Text Start End_ finding_row] in *.
  assert (Hpiece : ∃ before after,
            text = before ++ slice text (start hit) (end_ hit) ++ after
            ∧ (0 ≤ start hit ≤ end_ hit → end_ hit ≤ len text →
               len before = start hit
               ∧ len (slice text (start hit) (end_ hit))
                 = end_ hit - start hit)).
  { destruct (Z_le_dec 0 (start hit)) as [H0|H0];
      [destruct (Z_le_dec (start hit) (end_ hit)) as [H1|H1];
         [destruct (Z_le_dec (end_ hit) (len text)) as [H2|H2]|]|].
    - exists (slice_to text (start hit)), (slice_from text (end_ hit)).
      split; [by apply slice_three|]. intros _ _. split.
      + unfold slice_to. rewrite slice_length; lia.
      + rewrite slice_length; lia.
    - destruct (slice_piece text (start hit) (end_ hit)) as (pre & post & Heq).
      exists pre, post. split; [done|lia].
    - destruct (slice_piece text (start hit) (end_ hit)) as (pre & post & Heq).
      exists pre, post. split; [done|lia].
    - destruct (slice_piece text (start hit) (end_ hit)) as (pre & post & Heq).
      exists pre, post. split; [done|lia]. }
  destruct Hpiece as (before & after & Heq & Hlen).
  exists c, idx, text, hits, hit, before, after.
  split; [done|]. split; [done|]. split; [done|]. split; [done|].
  split; [done|]. split; [done|]. split; [done|]. split; [done|].
  split; [exact Heq|exact Hlen].
Qed.

End ScanFunction.

(** ** The subscript of line 274 *)

(** X12.  With a first finding that names no cell of the table,
    [anonymize_dataframe] stops at the subscript of line 274: [IndexError]
    when [Row] is no position of the table, [KeyError] for the label when
    [Row] is a position and [Column] is no column.  Whatever the first
    finding is, the store afterwards is the store before plus the copy made
    on line 266, which holds the content of the input. *)
Theorem anonymize_dataframe_subscript
    (anonymize : string → list RecognizerResult → result EngineResult)
    (σ : gmap nat DataFrame) (df : nat) (fr : DataFrame) (row : Finding)
    (rest : list Finding) :
  σ !! df = Some fr →
  (¬ (- Z.of_nat (index_len fr) ≤ Row row < Z.of_nat (index_len fr)) →
     (run (anonymize_dataframe anonymize df (row :: rest)) σ).2
     = Raise IndexError)
  ∧ (- Z.of_nat (index_len fr) ≤ Row row < Z.of_nat (index_len fr) →
     Column row ∉ columns fr →
     (run (anonymize_dataframe anonymize df (row :: rest)) σ).2
     = Raise (KeyError (Column row)))
  ∧ (run (anonymize_dataframe anonymize df (row :: rest)) σ).1
    = <[fresh (dom σ) := fr]> σ.
Proof.
  intros Hdf. rewrite (run_anonymize_dataframe_cons _ _ _ _ _ _ Hdf).
  cbn [fst snd]. unfold iloc_row_getitem, cell_at. repeat split.
  - intros Hout. by rewrite iloc_pos_out.
  - intros Hin Hcol. destruct (iloc_pos_ok _ _ Hin) as (i & -> & _). cbn.
    by rewrite assoc_None.
Qed.

Lemma anonymize_dataframe_subscript_witness :
  (¬ (- Z.of_nat (index_len Fixtures.two_rows) ≤ Row (Fixtures.finding_at "phone" 0)
      < Z.of_nat (index_len Fixtures.two_rows)) →
     (run (anonymize_dataframe Fixtures.tag_anonymizer 0%nat
             [Fixtures.finding_at "phone" 0])
          {[ 0%nat := Fixtures.two_rows ]}).2
     = Raise IndexError)
  ∧ (- Z.of_nat (index_len Fixtures.two_rows) ≤ Row (Fixtures.finding_at "phone" 0)
     < Z.of_nat (index_len Fixtures.two_rows) →
     Column (Fixtures.finding_at "phone" 0) ∉ columns Fixtures.two_rows →
     (run (anonymize_dataframe Fixtures.tag_anonymizer 0%nat
             [Fixtures.finding_at "phone" 0])
          {[ 0%nat := Fixtures.two_rows ]}).2
     = Raise (KeyError (Column (Fixtures.finding_at "phone" 0))))
  ∧ (run (anonymize_dataframe Fixtures.tag_anonymizer 0%nat
            [Fixtures.finding_at "phone" 0])
         {[ 0%nat := Fixtures.two_rows ]}).1
    = <[fresh (dom ({[ 0%nat := Fixtures.two_rows ]} : gmap nat DataFrame))
        := Fixtures.two_rows]> {[ 0%nat := Fixtures.two_rows ]}.
Proof.
  apply (anonymize_dataframe_subscript Fixtures.tag_anonymizer
           {[ 0%nat := Fixtures.two_rows ]} 0%nat Fixtures.two_rows
           (Fixtures.finding_at "phone" 0) []).
  reflexivity.
Defined.

(** A finding for a column the table does not have. *)
Example anonymize_dataframe_key_error :
  (run (anonymize_dataframe Fixtures.tag_anonymizer 0%nat
          [Fixtures.finding_at "phone" 0])
       {[ 0%nat := Fixtures.two_rows ]}).2
  = Raise (KeyError "phone").
Proof. vm_compute. reflexivity. Qed.

(** ** The examples of a whitelist *)












(** ** The file loader *)

Lemma unused_name_fresh (fs : gmap string string) suffix :
  fs !! Loaders.unused_name fs suffix = None.
Proof. unfold Loaders.unused_name. apply not_elem_of_dom, is_fresh. Qed.

Section ScriptFacts.

Context {Registry : Type}.
Variable analyzer_analyze :
  Registry → string → list string → string → result (list RecognizerResult).
Variable anonymizer_anonymize :
  string → list RecognizerResult → result EngineResult.
Variable reg : Registry.
Variable splitext_ext : string → string.
Variable temp_name : gmap string string → string → string.
Variable pd_read_csv : gmap string string → string → result DataFrame.
Variable pdf_load : gmap string string → string → result (list string).
Variable pd_read_json : gmap string string → string → result DataFrame.
Variable decode_utf8 : string → result string.
Variable format_score : Q → string.
Variable to_csv : DataFrame → string.

(** The temporary file is a new one. *)
Hypothesis temp_name_unused : ∀ fs suffix, fs !! temp_name fs suffix = None.

Lemma load_file_files (uploaded_file : UploadedFile) (file_type : string)
    (fs : gmap string string) :
  (load_file splitext_ext temp_name pd_read_csv pdf_load pd_read_json
     decode_utf8 uploaded_file file_type fs).1 = fs.
Proof.
  unfold load_file. cbn [fst].
  rewrite delete_insert_eq. apply delete_id, temp_name_unused.
Qed.

(** X14.  [load_file] leaves the file system as it found it, whether the
    reader returns or raises: the temporary file it writes is removed again
    and no other file is touched; and the name it returns is the name of the
    upload. *)
Theorem load_file_cleanup (uploaded_file : UploadedFile) (file_type : string)
    (fs : gmap string string) :
  (load_file splitext_ext temp_name pd_read_csv pdf_load pd_read_json
     decode_utf8 uploaded_file file_type fs).1 = fs
  ∧ ∀ content filename,
      (load_file splitext_ext temp_name pd_read_csv pdf_load pd_read_json
         decode_utf8 uploaded_file file_type fs).2 = Ok (content, filename) →
      filename = upload_name uploaded_file.
Proof.
  split; [apply load_file_files|].
  intros content filename. unfold load_file, load_content. cbn [snd].
  destruct (if contains "csv" (lower file_type) then _ else _); cbn; [|done].
  by intros [= _ <-].
Qed.

Lemma universal_newlines_chars_no_cr l :
  carriage_return ∉ universal_newlines_chars l.
Proof.
  induction l as [|c l IH]; cbn; [apply not_elem_of_nil|].
  destruct (Ascii.eqb_spec c carriage_return) as [->|Hc].
  - destruct l as [|d l'].
    + intros [?|?%elem_of_nil]%elem_of_cons; [discriminate|done].
    + destruct (Ascii.eqb d newline); [done|].
      intros [?|?]%elem_of_cons; [discriminate|done].
  - intros [?|?]%elem_of_cons; [congruence|done].
Qed.

(** X18.  For a file type that names none of csv, pdf and json (the Text
    option of the form), [load_file] gives back the text of the uploaded
    bytes, written to the temporary file and read back: the bytes decoded as
    UTF-8 with every line end read as a line feed, together with the name of
    the upload; it raises when the decoding raises; and the text it gives
    holds no carriage return. *)
Theorem load_file_text (uploaded_file : UploadedFile) (file_type : string)
    (fs : gmap string string) :
  contains "csv" (lower file_type) = false →
  contains "pdf" (lower file_type) = false →
  contains "json" (lower file_type) = false →
  (load_file splitext_ext temp_name pd_read_csv pdf_load pd_read_json
     decode_utf8 uploaded_file file_type fs).2
  = (text ← decode_utf8 (upload_value uploaded_file);
     Ok (Document (universal_newlines text), upload_name uploaded_file))
  ∧ ∀ text filename,
      (load_file splitext_ext temp_name pd_read_csv pdf_load pd_read_json
         decode_utf8 uploaded_file file_type fs).2
      = Ok (Document text, filename) →
      carriage_return ∉ chars text.
Proof.
  intros Hcsv Hpdf Hjson. unfold load_file, load_content. cbn [snd].
  rewrite Hcsv, Hpdf, Hjson, lookup_insert_eq.
  destruct (decode_utf8 (upload_value uploaded_file)) as [decoded|e]; cbn.
  - split; [done|]. intros text filename [= <- _]. unfold universal_newlines.
    rewrite list_ascii_of_string_of_list_ascii.
    apply universal_newlines_chars_no_cr.
  - split; [done|]. by intros.
Qed.

(** ** The upload handler *)

Lemma run_app_bind {A B} (m : app A) (k : A → app B) s :
  run_app (m ≫= k) s =
  match run_app m s with
  | (s', Ok a) => run_app (k a) s'
  | (s', Raise e) => (s', Raise e)
  end.
Proof. reflexivity. Qed.

Lemma run_show_table (content : nat) (filename : string)
    (fs0 : gmap string string) (σ : gmap nat DataFrame) (pg : list widget)
    (fr : DataFrame) :
  σ !! content = Some fr →
  well_formed fr →
  run_app (show_table analyzer_analyze anonymizer_anonymize reg to_csv
             content filename)
    {| files := fs0; frames := σ; page := pg |}
  = match analyze_dataframe analyzer_analyze reg fr with
    | Raise e => ({| files := fs0; frames := σ; page := pg |}, Raise e)
    | Ok [] =>
        ({| files := fs0; frames := σ;
            page := (pg ++ [ subheader filename; metric 0;
                             dataframe_view []; success_ready ])%list |},
         Ok tt)
    | Ok (f :: fs) =>
        ({| files := fs0;
            frames := <[fresh (dom σ) := fr]> σ;
            page := (pg ++ [ subheader filename;
                             metric (length (f :: fs));
                             dataframe_view (f :: fs) ])%list |},
         Raise (NameError "RecognizerResult"))
    end.
Proof.
  intros Hfr Hwf.
  unfold show_table. rewrite run_app_bind. cbn [run_app on_frames frames files page].
  rewrite (run_deref _ _ _ Hfr). rewrite run_app_bind. cbn [run_app compute].
  destruct (analyze_dataframe analyzer_analyze reg fr) as [[|f fs]|e] eqn:Hfs;
    [| |done].
  - cbn. by rewrite <- !app_assoc.
  - repeat (rewrite run_app_bind;
            cbn [run_app show on_frames frames files page]).
    rewrite (run_anonymize_dataframe_cons _ _ _ _ _ _ Hfr).
    destruct (iloc_row_getitem_ok fr (Row f) (Column f)) as [v ->].
    { eapply analyze_dataframe_addresses; [done..|apply list_elem_of_here]. }
    by rewrite <- !app_assoc.
Qed.

(** X15.  The branch of [main] for a table, for a well-formed table.  When
    the analyzer raises, nothing is shown.  When no detection is made, the
    page gets the heading, the count 0, the empty findings table and the
    notice that PII was detected.  When a detection is made, the page gets
    the heading, the count and the findings table, and the run ends with
    [NameError] for [RecognizerResult]: neither the download of the
    sanitized table nor the notice is reached.  The files are not touched
    and the table itself is not written. *)
Theorem show_table_outcome (content : nat) (filename : string) (s : session)
    (fr : DataFrame) :
  frames s !! content = Some fr →
  well_formed fr →
  run_app (show_table analyzer_analyze anonymizer_anonymize reg to_csv
             content filename) s
  = match analyze_dataframe analyzer_analyze reg fr with
    | Raise e => (s, Raise e)
    | Ok [] =>
        ({| files := files s; frames := frames s;
            page := (page s ++ [ subheader filename; metric 0;
                                 dataframe_view []; success_ready ])%list |},
         Ok tt)
    | Ok (f :: fs) =>
        ({| files := files s;
            frames := <[fresh (dom (frames s)) := fr]> (frames s);
            page := (page s ++ [ subheader filename;
                                 metric (length (f :: fs));
                                 dataframe_view (f :: fs) ])%list |},
         Raise (NameError "RecognizerResult"))
    end.
Proof.
  intros Hfr Hwf. destruct s as [fs0 σ pg]. cbn in Hfr.
  by rewrite (run_show_table _ _ _ _ _ fr).
Qed.

Lemma run_show_text (content filename : string)
    (fs0 : gmap string string) (σ : gmap nat DataFrame) (pg : list widget) :
  run_app (show_text analyzer_analyze anonymizer_anonymize reg format_score
             content filename)
    {| files := fs0; frames := σ; page := pg |}
  = match analyzer_analyze reg content [] "en" with
    | Raise e => ({| files := fs0; frames := σ; page := pg |}, Raise e)
    | Ok results =>
        match anonymizer_anonymize content results with
        | Raise e =>
            ({| files := fs0; frames := σ;
                page := (pg ++ subheader filename
                           :: display_results format_score content results)%list |},
             Raise e)
        | Ok r =>
            ({| files := fs0; frames := σ;
                page := (pg ++ subheader filename
                           :: display_results format_score content results
                           ++ [ text_area (text_ r);
                                download_button (text_ r) ("safe_" ++ filename)
                                  "text/plain" ])%list |},
             Ok tt)
        end
    end.
Proof.
  unfold show_text, analyze_text, anonymize_text.
  rewrite run_app_bind. cbn [run_app compute].
  destruct (analyzer_analyze reg content [] "en") as [results|e]; [|done].
  repeat (rewrite run_app_bind;
          cbn [run_app show compute frames files page]).
  destruct (anonymizer_anonymize content results) as [r|e];
    cbn [mbind result_bind Py.bind].
  - repeat (rewrite run_app_bind;
            cbn [run_app show compute frames files page]).
    rewrite <- !app_assoc. reflexivity.
  - rewrite <- !app_assoc. reflexivity.
Qed.

(** Tables as the readers return them. *)
Hypothesis pd_read_csv_well_formed :
  ∀ fs path df, pd_read_csv fs path = Ok df → well_formed df.
Hypothesis pd_read_json_well_formed :
  ∀ fs path df, pd_read_json fs path = Ok df → well_formed df.

Lemma display_results_no_download original_text findings :
  Forall (λ w, ¬ is_csv_download w)
    (display_results format_score original_text findings).
Proof.
  destruct findings; cbn; repeat constructor; by intros (? & ? & ?).
Qed.

(** X17.  One run of the upload handler, whatever the file and the file
    type: the files on disk are afterwards as they were before, and the
    download of the sanitized table is never put on the page. *)
Theorem process_upload_no_csv_download (uploaded_file : UploadedFile)
    (file_type : string) (s : session) :
  files (run_app (process_upload analyzer_analyze anonymizer_anonymize reg
                    splitext_ext temp_name pd_read_csv pdf_load pd_read_json
                    decode_utf8 format_score to_csv uploaded_file file_type) s).1
  = files s
  ∧ (Forall (λ w, ¬ is_csv_download w) (page s) →
     Forall (λ w, ¬ is_csv_download w)
       (page (run_app (process_upload analyzer_analyze anonymizer_anonymize reg
                         splitext_ext temp_name pd_read_csv pdf_load
                         pd_read_json decode_utf8 format_score to_csv
                         uploaded_file file_type) s).1)).
Proof.
  destruct s as [fs0 σ pg]. unfold process_upload.
  rewrite run_app_bind. cbn [run_app on_files files frames page].
  pose proof (load_file_files uploaded_file file_type fs0) as Hfs.
  destruct (load_file splitext_ext temp_name pd_read_csv pdf_load pd_read_json
              decode_utf8 uploaded_file file_type fs0) as [fs1 r] eqn:Hload.
  cbn in Hfs. subst fs1.
  destruct r as [[[df|text] filename]|e]; cbn [fst snd].
  - assert (Hwf : well_formed df).
    { unfold load_file in Hload. injection Hload as _ Hload.
      unfold load_content in Hload.
      destruct (contains "csv" (lower file_type)).
      - destruct (pd_read_csv _ _) as [df'|] eqn:Hcsv; [|done].
        injection Hload as <-. eauto.
      - destruct (contains "pdf" (lower file_type)).
        + by destruct (pdf_load _ _).
        + destruct (contains "json" (lower file_type)).
          * destruct (pd_read_json _ _) as [df'|] eqn:Hjson; [|done].
            injection Hload as <-. eauto.
          * destruct (_ !! _); [|done]. by destruct (decode_utf8 _). }
    rewrite run_app_bind. cbn [run_app on_frames alloc run files frames page].
    rewrite run_show_table with (fr := df);
      [|apply lookup_insert_eq|done].
    destruct (analyze_dataframe analyzer_analyze reg df) as [[|f fs]|e];
      cbn; (split; [done|]); intros Hpg; [| |done].
    + apply Forall_app. split; [done|].
      repeat constructor; by intros (? & ? & ?).
    + apply Forall_app. split; [done|].
      repeat constructor; by intros (? & ? & ?).
  - rewrite run_show_text.
    destruct (analyzer_analyze reg text [] "en") as [results|e]; [|done].
    destruct (anonymizer_anonymize text results) as [r|e]; cbn;
      (split; [done|]); intros Hpg.
    + apply Forall_app. split; [done|]. constructor; [by intros (? & ? & ?)|].
      apply Forall_app. split; [apply display_results_no_download|].
      repeat constructor; by intros (? & ? & ?).
    + apply Forall_app. split; [done|]. constructor; [by intros (? & ? & ?)|].
      apply display_results_no_download.
  - done.
Qed.

End ScriptFacts.

(** ** The theorems at the example loaders *)

Lemma two_rows_well_formed : well_formed Fixtures.two_rows.
Proof. split; [apply NoDup_singleton|repeat constructor]. Qed.

Lemma read_table_well_formed fs path df :
  Loaders.read_table fs path = Ok df → well_formed df.
Proof. intros [= <-]. apply two_rows_well_formed. Qed.

Lemma analyze_dataframe_text_witness :
  ∃ c idx text hits hit before after,
    (Column (Fixtures.finding_at "email" 0), c) ∈ series Fixtures.two_rows
    ∧ Row (Fixtures.finding_at "email" 0) = Z.of_nat idx
    ∧ dropna c !! idx = Some (Val text)
    ∧ Fixtures.email_analyzer tt text [] "en" = Ok hits ∧ hit ∈ hits
    ∧ Start (Fixtures.finding_at "email" 0) = start hit
    ∧ End_ (Fixtures.finding_at "email" 0) = end_ hit
    ∧ Text (Fixtures.finding_at "email" 0)
      = slice text (Start (Fixtures.finding_at "email" 0))
          (End_ (Fixtures.finding_at "email" 0))
    ∧ text = before ++ Text (Fixtures.finding_at "email" 0) ++ after
    ∧ (0 ≤ Start (Fixtures.finding_at "email" 0)
         ≤ End_ (Fixtures.finding_at "email" 0) →
       End_ (Fixtures.finding_at "email" 0) ≤ len text →
       len before = Start (Fixtures.finding_at "email" 0)
       ∧ len (Text (Fixtures.finding_at "email" 0))
         = End_ (Fixtures.finding_at "email" 0)
           - Start (Fixtures.finding_at "email" 0)).
Proof.
  apply (analyze_dataframe_text Fixtures.email_analyzer tt Fixtures.two_rows
           [Fixtures.finding_at "email" 0]).
  - apply NoDup_singleton.
  - vm_compute. reflexivity.
  - apply list_elem_of_here.
Defined.

Lemma analyze_dataframe_raises_witness :
  analyze_dataframe Loaders.picky_analyzer tt Fixtures.two_rows
  = Raise (LibraryError "ValueError") ↔
  ∃ us1 u us2,
    units Fixtures.two_rows = (us1 ++ u :: us2)%list
    ∧ Forall (λ u', is_ok (Loaders.picky_analyzer tt u'.2 [] "en") = true) us1
    ∧ Loaders.picky_analyzer tt u.2 [] "en" = Raise (LibraryError "ValueError").
Proof.
  apply (analyze_dataframe_raises Loaders.picky_analyzer tt Fixtures.two_rows).
  apply NoDup_singleton.
Defined.

(** The scan of the two-row table ends at the second value. *)
Example analyze_dataframe_picky :
  analyze_dataframe Loaders.picky_analyzer tt Fixtures.two_rows
  = Raise (LibraryError "ValueError").
Proof. vm_compute. reflexivity. Qed.

Lemma analyze_dataframe_all_missing_witness :
  analyze_dataframe Loaders.broken_analyzer tt Loaders.all_missing = Ok [].
Proof.
  apply (analyze_dataframe_all_missing Loaders.broken_analyzer tt
           Loaders.all_missing).
  - apply NoDup_singleton.
  - repeat constructor.
Defined.

Lemma load_file_cleanup_witness :
  (load_file Loaders.ext Loaders.unused_name Loaders.read_table
     Loaders.load_pages Loaders.read_table Loaders.decode Loaders.upload
     (page_icon ++ " CSV") ∅).1 = ∅
  ∧ ∀ content filename,
      (load_file Loaders.ext Loaders.unused_name Loaders.read_table
         Loaders.load_pages Loaders.read_table Loaders.decode Loaders.upload
         (page_icon ++ " CSV") ∅).2 = Ok (content, filename) →
      filename = upload_name Loaders.upload.
Proof.
  apply (load_file_cleanup Loaders.ext Loaders.unused_name Loaders.read_table
           Loaders.load_pages Loaders.read_table Loaders.decode).
  apply unused_name_fresh.
Defined.

Lemma show_table_outcome_witness :
  run_app (show_table Fixtures.email_analyzer Fixtures.tag_anonymizer tt
             Loaders.csv_of 0%nat "people.csv") Loaders.table_session
  = match analyze_dataframe Fixtures.email_analyzer tt Fixtures.two_rows with
    | Raise e => (Loaders.table_session, Raise e)
    | Ok [] =>
        ({| files := files Loaders.table_session;
            frames := frames Loaders.table_session;
            page := (page Loaders.table_session
                     ++ [ subheader "people.csv"; metric 0;
                          dataframe_view []; success_ready ])%list |},
         Ok tt)
    | Ok (f :: fs) =>
        ({| files := files Loaders.table_session;
            frames := <[fresh (dom (frames Loaders.table_session))
                        := Fixtures.two_rows]> (frames Loaders.table_session);
            page := (page Loaders.table_session
                     ++ [ subheader "people.csv"; metric (length (f :: fs));
                          dataframe_view (f :: fs) ])%list |},
         Raise (NameError "RecognizerResult"))
    end.
Proof.
  apply (show_table_outcome Fixtures.email_analyzer Fixtures.tag_anonymizer tt
           Loaders.csv_of 0%nat "people.csv" Loaders.table_session
           Fixtures.two_rows).
  - reflexivity.
  - apply two_rows_well_formed.
Defined.

(** The run for the two-row table: the findings are shown and the run ends
    with the [NameError]. *)
Example show_table_two_rows :
  (run_app (show_table Fixtures.email_analyzer Fixtures.tag_anonymizer tt
              Loaders.csv_of 0%nat "people.csv") Loaders.table_session).2
  = Raise (NameError "RecognizerResult")
  ∧ page (run_app (show_table Fixtures.email_analyzer Fixtures.tag_anonymizer
                     tt Loaders.csv_of 0%nat "people.csv")
            Loaders.table_session).1
    = [ subheader "people.csv"; metric 1;
        dataframe_view [Fixtures.finding_at "email" 0] ].
Proof. vm_compute. split; reflexivity. Qed.

Lemma process_upload_no_csv_download_witness :
  files (run_app (process_upload Fixtures.email_analyzer
                    Fixtures.tag_anonymizer tt Loaders.ext Loaders.unused_name
                    Loaders.read_table Loaders.load_pages Loaders.read_table
                    Loaders.decode Loaders.two_decimals Loaders.csv_of
                    Loaders.upload (page_icon ++ " CSV"))
           Loaders.empty_session).1
  = files Loaders.empty_session
  ∧ (Forall (λ w, ¬ is_csv_download w) (page Loaders.empty_session) →
     Forall (λ w, ¬ is_csv_download w)
       (page (run_app (process_upload Fixtures.email_analyzer
                         Fixtures.tag_anonymizer tt Loaders.ext
                         Loaders.unused_name Loaders.read_table
                         Loaders.load_pages Loaders.read_table Loaders.decode
                         Loaders.two_decimals Loaders.csv_of Loaders.upload
                         (page_icon ++ " CSV"))
                Loaders.empty_session).1)).
Proof.
  apply (process_upload_no_csv_download Fixtures.email_analyzer
           Fixtures.tag_anonymizer tt Loaders.ext Loaders.unused_name
           Loaders.read_table Loaders.load_pages Loaders.read_table
           Loaders.decode Loaders.two_decimals Loaders.csv_of).
  - apply unused_name_fresh.
  - apply read_table_well_formed.
  - apply read_table_well_formed.
Defined.

(** The four file types of the form: which reader each one selects. *)
Example file_types_dispatch :
  (λ file_type,
     (contains "csv" (lower file_type), contains "pdf" (lower file_type),
      contains "json" (lower file_type))) <$> file_types
  = [ (true, false, false); (false, true, false); (false, false, false);
      (false, false, true) ].
Proof. vm_compute. reflexivity. Qed.

Lemma load_file_text_witness :
  (load_file Loaders.ext Loaders.unused_name Loaders.read_table
     Loaders.load_pages Loaders.read_table Loaders.decode
     Loaders.mixed_line_ends (page_icon ++ " Text") ∅).2
  = (text ← Loaders.decode (upload_value Loaders.mixed_line_ends);
     Ok (Document (universal_newlines text),
         upload_name Loaders.mixed_line_ends))
  ∧ ∀ text filename,
      (load_file Loaders.ext Loaders.unused_name Loaders.read_table
         Loaders.load_pages Loaders.read_table Loaders.decode
         Loaders.mixed_line_ends (page_icon ++ " Text") ∅).2
      = Ok (Document text, filename) →
      carriage_return ∉ chars text.
Proof.
  apply (load_file_text Loaders.ext Loaders.unused_name Loaders.read_table
           Loaders.load_pages Loaders.read_table Loaders.decode);
    vm_compute; reflexivity.
Defined.

(** The three kinds of line end of the upload are read as line feeds. *)
Example load_file_mixed_line_ends :
  (load_file Loaders.ext Loaders.unused_name Loaders.read_table
     Loaders.load_pages Loaders.read_table Loaders.decode
     Loaders.mixed_line_ends (page_icon ++ " Text") ∅).2
  = Ok (Document ("a" ++ String newline "" ++ "b" ++ String newline ""
                  ++ "c" ++ String newline ""),
        "notes.text").
Proof. vm_compute. reflexivity. Qed.
